(** * The NiFi workshop setup script (labs/workshop_nifi.py)

    A shallow embedding of [workshop_nifi.py]: the module-level helpers
    [skip_cdsw] and [read_in_schema] and the methods of [NiFiWorkshop]
    ([before_setup], [after_setup], [teardown], [lab1_register_schema],
    [lab2_nifi_flow], [lab4_rest_and_kudu]).

    The script is a client of remote services.  Every function it calls
    that lives outside the file (nipyapi's [canvas] and [versioning], the
    helper modules [nf], [efm], [schreg], [nifireg], [kafka], [kudu],
    [cdsw], the names pulled in by [from . import *], and the operating
    system and HTTP calls of [read_in_schema]) is a [Call] answered by an
    arbitrary oracle [respond] over an arbitrary world type: the answer is
    a value or a Python exception, and the world may change with every
    call.  Programs are functions from the world to an outcome, the new
    world and the list of events (calls with how they ended, and debug log
    lines) they produced, in program order. *)

From stdpp Require Import base numbers list strings gmap.
From Stdlib Require Import Lia.

Open Scope string_scope.
Open Scope Z_scope.
Open Scope list_scope.

(** ** Values exchanged with the SDKs *)

(** A remote object (process group, controller service, processor, port,
    funnel, registry client, bucket): the script only reads [x.id] and
    [x.component.name] of such objects and passes them on. *)
Record Entity := mkEntity { ent_id : string; component_name : string }.

(** What [nifireg.save_flow_ver] returns; the script reads
    [version_control_information.flow_id] of it. *)
Record VersionedFlow := mkVersionedFlow { vci_flow_id : string }.

(** What [requests.get] returns. *)
Record Response := mkResponse { status_code : Z; text : string }.

(** Python exceptions.  [ApiException] is nipyapi's, with the two
    attributes the script reads; [ValueError] carries the two arguments
    [read_in_schema] gives it; [OtherError] stands for every other
    exception class an SDK call may raise. *)
Inductive Exn :=
| ApiException (status : Z) (body : string)
| ValueError (msg : string) (arg : Z)
| AttributeError (attr : string)
| OtherError (cls : string).

(** A Python dict with string keys whose values are strings or [None],
    in insertion order. *)
Definition Props := list (string * option string).

Fixpoint dict_set (k : string) (v : option string) (d : Props) : Props :=
  match d with
  | [] => [(k, v)]
  | (k', v') :: d' =>
      if String.eqb k k' then (k, v) :: d' else (k', v') :: dict_set k v d'
  end.

(** [d.update(other)] *)
Definition dict_update (d other : Props) : Props :=
  fold_left (fun acc kv => dict_set (fst kv) (snd kv) acc) other d.

Definition dict_get (k : string) (d : Props) : option (option string) :=
  snd <$> List.find (fun kv => String.eqb k (fst kv)) d.

(** The processor type given to [nf.create_processor]: one class name or
    a list of candidates. *)
Inductive ProcType :=
| TypeName (cls : string)
| TypeNames (classes : list string).

(** The configuration dict given to [nf.create_processor]. *)
Record ProcConfig := mkProcConfig {
  properties : Props;
  autoTerminatedRelationships : option (list string)
}.

(** [self.context]: the attributes this file reads or writes.  [None] is
    an attribute that is unset or holds Python's [None]. *)
Record Context := mkContext {
  root_pg : option Entity;
  efm_pg_id : option string;
  flow_id : option string;
  ctx_skip_cdsw : option bool;
  sensor_bucket : option Entity;
  reg_client : option Entity;
  sensor_pg : option Entity;
  sensor_flow : option VersionedFlow;
  ssl_svc : option Entity;
  keytab_svc : option Entity;
  sr_svc : option Entity;
  json_reader_svc : option Entity;
  json_writer_svc : option Entity;
  avro_writer_svc : option Entity;
  json_reader_with_schema_svc : option Entity;
  from_gw : option Entity;
  temp_funnel : option Entity
}.

Definition empty_context : Context :=
  mkContext None None None None None None None None None None None None None
            None None None None.

(** [self.context.<attr> = v] *)
Definition set_sensor_bucket (v : option Entity) (ctx : Context) : Context :=
  mkContext (root_pg ctx) (efm_pg_id ctx) (flow_id ctx) (ctx_skip_cdsw ctx) v
    (reg_client ctx) (sensor_pg ctx) (sensor_flow ctx) (ssl_svc ctx)
    (keytab_svc ctx) (sr_svc ctx) (json_reader_svc ctx) (json_writer_svc ctx)
    (avro_writer_svc ctx) (json_reader_with_schema_svc ctx) (from_gw ctx)
    (temp_funnel ctx).

Definition set_reg_client (v : option Entity) (ctx : Context) : Context :=
  mkContext (root_pg ctx) (efm_pg_id ctx) (flow_id ctx) (ctx_skip_cdsw ctx)
    (sensor_bucket ctx) v (sensor_pg ctx) (sensor_flow ctx) (ssl_svc ctx)
    (keytab_svc ctx) (sr_svc ctx) (json_reader_svc ctx) (json_writer_svc ctx)
    (avro_writer_svc ctx) (json_reader_with_schema_svc ctx) (from_gw ctx)
    (temp_funnel ctx).

Definition set_sensor_pg (v : option Entity) (ctx : Context) : Context :=
  mkContext (root_pg ctx) (efm_pg_id ctx) (flow_id ctx) (ctx_skip_cdsw ctx)
    (sensor_bucket ctx) (reg_client ctx) v (sensor_flow ctx) (ssl_svc ctx)
    (keytab_svc ctx) (sr_svc ctx) (json_reader_svc ctx) (json_writer_svc ctx)
    (avro_writer_svc ctx) (json_reader_with_schema_svc ctx) (from_gw ctx)
    (temp_funnel ctx).

Definition set_sensor_flow (v : option VersionedFlow) (ctx : Context) : Context :=
  mkContext (root_pg ctx) (efm_pg_id ctx) (flow_id ctx) (ctx_skip_cdsw ctx)
    (sensor_bucket ctx) (reg_client ctx) (sensor_pg ctx) v (ssl_svc ctx)
    (keytab_svc ctx) (sr_svc ctx) (json_reader_svc ctx) (json_writer_svc ctx)
    (avro_writer_svc ctx) (json_reader_with_schema_svc ctx) (from_gw ctx)
    (temp_funnel ctx).

Definition set_ssl_svc (v : option Entity) (ctx : Context) : Context :=
  mkContext (root_pg ctx) (efm_pg_id ctx) (flow_id ctx) (ctx_skip_cdsw ctx)
    (sensor_bucket ctx) (reg_client ctx) (sensor_pg ctx) (sensor_flow ctx) v
    (keytab_svc ctx) (sr_svc ctx) (json_reader_svc ctx) (json_writer_svc ctx)
    (avro_writer_svc ctx) (json_reader_with_schema_svc ctx) (from_gw ctx)
    (temp_funnel ctx).

Definition set_keytab_svc (v : option Entity) (ctx : Context) : Context :=
  mkContext (root_pg ctx) (efm_pg_id ctx) (flow_id ctx) (ctx_skip_cdsw ctx)
    (sensor_bucket ctx) (reg_client ctx) (sensor_pg ctx) (sensor_flow ctx)
    (ssl_svc ctx) v (sr_svc ctx) (json_reader_svc ctx) (json_writer_svc ctx)
    (avro_writer_svc ctx) (json_reader_with_schema_svc ctx) (from_gw ctx)
    (temp_funnel ctx).

Definition set_sr_svc (v : option Entity) (ctx : Context) : Context :=
  mkContext (root_pg ctx) (efm_pg_id ctx) (flow_id ctx) (ctx_skip_cdsw ctx)
    (sensor_bucket ctx) (reg_client ctx) (sensor_pg ctx) (sensor_flow ctx)
    (ssl_svc ctx) (keytab_svc ctx) v (json_reader_svc ctx)
    (json_writer_svc ctx) (avro_writer_svc ctx)
    (json_reader_with_schema_svc ctx) (from_gw ctx) (temp_funnel ctx).

Definition set_json_reader_svc (v : option Entity) (ctx : Context) : Context :=
  mkContext (root_pg ctx) (efm_pg_id ctx) (flow_id ctx) (ctx_skip_cdsw ctx)
    (sensor_bucket ctx) (reg_client ctx) (sensor_pg ctx) (sensor_flow ctx)
    (ssl_svc ctx) (keytab_svc ctx) (sr_svc ctx) v (json_writer_svc ctx)
    (avro_writer_svc ctx) (json_reader_with_schema_svc ctx) (from_gw ctx)
    (temp_funnel ctx).

Definition set_json_writer_svc (v : option Entity) (ctx : Context) : Context :=
  mkContext (root_pg ctx) (efm_pg_id ctx) (flow_id ctx) (ctx_skip_cdsw ctx)
    (sensor_bucket ctx) (reg_client ctx) (sensor_pg ctx) (sensor_flow ctx)
    (ssl_svc ctx) (keytab_svc ctx) (sr_svc ctx) (json_reader_svc ctx) v
    (avro_writer_svc ctx) (json_reader_with_schema_svc ctx) (from_gw ctx)
    (temp_funnel ctx).

Definition set_avro_writer_svc (v : option Entity) (ctx : Context) : Context :=
  mkContext (root_pg ctx) (efm_pg_id ctx) (flow_id ctx) (ctx_skip_cdsw ctx)
    (sensor_bucket ctx) (reg_client ctx) (sensor_pg ctx) (sensor_flow ctx)
    (ssl_svc ctx) (keytab_svc ctx) (sr_svc ctx) (json_reader_svc ctx)
    (json_writer_svc ctx) v (json_reader_with_schema_svc ctx) (from_gw ctx)
    (temp_funnel ctx).

Definition set_json_reader_with_schema_svc (v : option Entity) (ctx : Context) : Context :=
  mkContext (root_pg ctx) (efm_pg_id ctx) (flow_id ctx) (ctx_skip_cdsw ctx)
    (sensor_bucket ctx) (reg_client ctx) (sensor_pg ctx) (sensor_flow ctx)
    (ssl_svc ctx) (keytab_svc ctx) (sr_svc ctx) (json_reader_svc ctx)
    (json_writer_svc ctx) (avro_writer_svc ctx) v (from_gw ctx)
    (temp_funnel ctx).

(** ** The calls that leave the file *)

Inductive Call :=
(* names of [from . import *] *)
| IsTlsEnabled
| GetThePwd
| GetHostname
(* os, builtins, requests *)
| OsPathExists (path : string)
| OpenRead (path : string)
| RequestsGet (uri : string)
(* nf = utils.nifi *)
| NfSetEnvironment
| NfWaitForData (pg_name : string)
| NfDeleteAll (pg : Entity)
| NfCreateController (pg : Entity) (cls : string) (props : Props)
                     (start : bool) (name : option string)
| NfCreateProcessor (pg : Entity) (name : string) (ptype : ProcType)
                    (position : Z * Z) (cfg : ProcConfig)
| NfCreateFunnel (pg_id : string) (position : Z * Z)
| NfUpdateConnection (source old_destination new_destination : Entity)
(* nipyapi.canvas *)
| CanvasScheduleProcessGroup (pg_id : string) (scheduled : bool)
| CanvasListAllControllers (pg_id : string)
| CanvasScheduleController (controller : Entity) (scheduled : bool)
| CanvasCreateProcessGroup (parent : Entity) (name : string) (location : Z * Z)
| CanvasGetController (identifier identifier_type : string)
| CanvasUpdateController (controller : Entity) (props : Props)
| CanvasCreatePort (pg_id port_type name state : string) (position : Z * Z)
| CanvasCreateConnection (source target : Entity)
                         (relationships : option (list string))
| CanvasScheduleComponents (pg_id : string) (scheduled : bool)
                           (components : list Entity)
| CanvasUpdateVariableRegistry (pg : Entity) (update : list (string * string))
(* nipyapi.versioning *)
| VersioningGetRegistryClient (name : string)
| VersioningDeleteRegistryClient (client : Entity)
| VersioningGetRegistryBucket (name : string)
| VersioningCreateRegistryBucket (name : string)
| VersioningCreateRegistryClient (name uri description : string)
(* utils.nifireg *)
| NifiregGetUrl
| NifiregSaveFlowVer (pg client bucket : Entity)
                     (flow_name flow_id : option string) (comment : string)
| NifiregDeleteFlows (bucket_name : string)
(* utils.efm, utils.schreg *)
| EfmDeleteAll (flow_id : string)
| SchregDeleteAllSchemas
| SchregCreateSchema (name description schema_text : string)
| SchregGetApiUrl
(* utils.kafka *)
| KafkaGetCommonClientProperties (ctx : Context)
                                 (client_type group_id client_id : string)
(* utils.kudu *)
| KuduCreateTable
| KuduGetKuduTableName (database table : string)
| KuduDropTable
(* utils.cdsw *)
| CdswGetModelAccessKey
| CdswCreateModelApiKey
| CdswGetModelEndpointUrl
| CdswDeleteAllModelApiKeys.

(** The type of the value a call returns when it does not raise. *)
Definition ret_type (c : Call) : Type :=
  match c with
  | IsTlsEnabled => bool
  | GetThePwd | GetHostname => string
  | OsPathExists _ => bool
  | OpenRead _ => string
  | RequestsGet _ => Response
  | NfSetEnvironment => Entity * string * string
  | NfCreateController _ _ _ _ _ | NfCreateProcessor _ _ _ _ _
  | NfCreateFunnel _ _ => Entity
  | CanvasListAllControllers _ => list Entity
  | CanvasCreateProcessGroup _ _ _ | CanvasCreatePort _ _ _ _ _ => Entity
  | CanvasGetController _ _ => option Entity
  | VersioningGetRegistryClient _ | VersioningGetRegistryBucket _ =>
      option Entity
  | VersioningCreateRegistryBucket _
  | VersioningCreateRegistryClient _ _ _ => Entity
  | NifiregGetUrl | SchregGetApiUrl => string
  | NifiregSaveFlowVer _ _ _ _ _ _ => VersionedFlow
  | KafkaGetCommonClientProperties _ _ _ _ => Props
  | KuduGetKuduTableName _ _ => string
  | CdswGetModelAccessKey | CdswCreateModelApiKey
  | CdswGetModelEndpointUrl => string
  | _ => unit
  end.

(** ** Events, outcomes and the monad of the script *)

Inductive Event :=
| Called (c : Call) (raised : option Exn)
| Logged (msg : string).

Inductive Outcome (A : Type) :=
| Ok (a : A)
| Raise (e : Exn)
| Diverge.
Arguments Ok {A} a.
Arguments Raise {A} e.
Arguments Diverge {A}.

Section Script.

Variable W : Type.
Variable respond : forall c : Call, W -> (Exn + ret_type c) * W.

(** The process environment [os.environ] and [self.run_id]. *)
Variable environ : gmap string string.
Variable run_id : string.

Definition M (A : Type) : Type := W -> Outcome A * W * list Event.

Definition ret {A} (a : A) : M A := fun w => (Ok a, w, []).

Definition bind {A B} (m : M A) (f : A -> M B) : M B :=
  fun w =>
    match m w with
    | (Ok a, w1, tr1) => let '(r, w2, tr2) := f a w1 in (r, w2, tr1 ++ tr2)
    | (Raise e, w1, tr1) => (Raise e, w1, tr1)
    | (Diverge, w1, tr1) => (Diverge, w1, tr1)
    end.

Definition raise {A} (e : Exn) : M A := fun w => (Raise e, w, []).

Definition diverge {A} : M A := fun w => (Diverge, w, []).

Definition call (c : Call) : M (ret_type c) :=
  fun w =>
    match respond c w with
    | (inr v, w1) => (Ok v, w1, [Called c None])
    | (inl e, w1) => (Raise e, w1, [Called c (Some e)])
    end.

(** [LOG.debug(msg)] *)
Definition log_debug (msg : string) : M unit :=
  fun w => (Ok tt, w, [Logged msg]).

(** [try: m  except ApiException as exc: h exc.status exc.body]: only an
    [ApiException] enters the handler; any other exception, and any
    exception the handler itself raises, goes on to the caller. *)
Definition try_except_ApiException {A} (m : M A) (h : Z -> string -> M A) : M A :=
  fun w =>
    match m w with
    | (Raise (ApiException status body), w1, tr1) =>
        let '(r, w2, tr2) := h status body w1 in (r, w2, tr1 ++ tr2)
    | other => other
    end.

Notation "x <- m ;; k" := (bind m (fun x => k))
  (at level 100, m at next level, k at level 200, right associativity).
Notation "m ;;; k" := (bind m (fun _ => k))
  (at level 100, k at level 200, right associativity).

(** [self.context.<attr>] where the attribute is unset, and [x.<attr>]
    where [x] is [None], raise [AttributeError]. *)
Definition getattr {A} (attr : string) (o : option A) : M A :=
  match o with
  | Some a => ret a
  | None => raise (AttributeError attr)
  end.

(** ** Module-level helpers *)

Definition PG_NAME := "Process Sensor Data".
Definition CONSUMER_GROUP_ID := "iot-sensor-consumer".
Definition PRODUCER_CLIENT_ID := "nifi-sensor-data".
Definition _SCHEMA_URI :=
  "http://raw.githubusercontent.com/cloudera-labs/edge2ai-workshop/master/sensor.avsc".

(** [str(flag)] *)
Definition str_bool (b : bool) : string := if b then "True" else "False".

Definition skip_cdsw : M bool :=
  let flag := bool_decide (is_Some (environ !! "SKIP_CDSW")) in
  log_debug ("SKIP_CDSW=" +:+ str_bool flag);;;
  ret flag.

Definition read_in_schema (uri : string) : M string :=
  let otherwise : M string :=
    r <- call (RequestsGet uri);;
    if status_code r =? 200 then ret (text r)
    else raise (ValueError
                  "Unable to retrieve schema from URI, response was %s"
                  (status_code r)) in
  match environ !! "SCHEMA_FILE" with
  | Some path =>
      found <- call (OsPathExists path);;
      if found : bool then call (OpenRead path) else otherwise
  | None => otherwise
  end.

(** ** NiFiWorkshop *)

Definition workshop_id : string := "nifi".

Definition prereqs : list string := ["edge"].

Definition before_setup (ctx : Context) : M Context :=
  env <- call NfSetEnvironment;;
  let '(root, efm_id, flow) := env in
  flag <- skip_cdsw;;
  ret (mkContext (Some root) (Some efm_id) (Some flow) (Some flag)
         (sensor_bucket ctx) (reg_client ctx) (sensor_pg ctx) (sensor_flow ctx)
         (ssl_svc ctx) (keytab_svc ctx) (sr_svc ctx) (json_reader_svc ctx)
         (json_writer_svc ctx) (avro_writer_svc ctx)
         (json_reader_with_schema_svc ctx) (from_gw ctx) (temp_funnel ctx)).

Definition after_setup : M unit :=
  call (NfWaitForData PG_NAME).

(** ['is referenced by' in body] *)
Fixpoint contains (needle s : string) : bool :=
  String.prefix needle s ||
  match s with
  | EmptyString => false
  | String _ s' => contains needle s'
  end.

(** One controller of the [for] loop of [teardown] (lines 67-73); [failed]
    is the flag before, the result is the flag after. *)
Definition stop_controller (controller : Entity) (failed : bool) : M bool :=
  try_except_ApiException
    (call (CanvasScheduleController controller false);;;
     log_debug ("Controller " +:+ component_name controller +:+ " stopped.");;;
     ret failed)
    (fun status body =>
       if (status =? 409) && contains "is referenced by" body then
         log_debug ("Controller " +:+ component_name controller
                    +:+ " failed to stop. Will retry later.");;;
         ret true
       else ret failed).

(** The [for] loop over the controllers (lines 66-73). *)
Fixpoint stop_controllers (controllers : list Entity) (failed : bool) : M bool :=
  match controllers with
  | [] => ret failed
  | controller :: rest =>
      failed' <- stop_controller controller failed;;
      stop_controllers rest failed'
  end.

(** One iteration of [while True] up to the test of [failed]
    (lines 65-73). *)
Definition stop_pass (root_id : string) : M bool :=
  controllers <- call (CanvasListAllControllers root_id);;
  stop_controllers controllers false.

(** The [while True] loop (lines 64-75).  Python puts no bound on it; the
    fuel only makes the function total, and [Diverge] is the loop still
    running when the fuel is used up. *)
Fixpoint stop_loop (fuel : nat) (root_id : string) : M unit :=
  match fuel with
  | O => diverge
  | S fuel' =>
      failed <- stop_pass root_id;;
      if failed : bool then stop_loop fuel' root_id else ret tt
  end.

Definition teardown (fuel : nat) : M unit :=
  env <- call NfSetEnvironment;;
  let '(root, _, flow) := env in
  call (CanvasScheduleProcessGroup (ent_id root) false);;;
  stop_loop fuel (ent_id root);;;
  call (NfDeleteAll root);;;
  call (EfmDeleteAll flow);;;
  call SchregDeleteAllSchemas;;;
  client <- call (VersioningGetRegistryClient "NiFi Registry");;
  match client with
  | Some c => call (VersioningDeleteRegistryClient c)
  | None => ret tt
  end;;;
  call (NifiregDeleteFlows "SensorFlows");;;
  call KuduDropTable;;;
  call CdswDeleteAllModelApiKeys.

(** [self.context.<attr>.id] *)
Definition attr_id (attr : string) (o : option Entity) : M string :=
  e <- getattr attr o;;
  ret (ent_id e).

Definition lab1_register_schema : M unit :=
  (* Create Schema *)
  schema_text <- read_in_schema _SCHEMA_URI;;
  call (SchregCreateSchema
          "SensorReading" "Schema for the data generated by the IoT sensors"
          schema_text).

Definition PublishKafkaRecord : ProcType :=
  TypeNames ["org.apache.nifi.processors.kafka.pubsub.PublishKafkaRecord_2_6";
             "org.apache.nifi.processors.kafka.pubsub.PublishKafkaRecord_2_0"].

Definition ConsumeKafkaRecord : ProcType :=
  TypeNames ["org.apache.nifi.processors.kafka.pubsub.ConsumeKafkaRecord_2_6";
             "org.apache.nifi.processors.kafka.pubsub.ConsumeKafkaRecord_2_0"].

Definition lab2_nifi_flow (ctx : Context) : M Context :=
  (* Create a bucket in NiFi Registry to save the edge flow versions *)
  bucket <- call (VersioningGetRegistryBucket "SensorFlows");;
  let ctx := set_sensor_bucket bucket ctx in
  ctx <- match sensor_bucket ctx with
         | Some _ => ret ctx
         | None =>
             bucket <- call (VersioningCreateRegistryBucket "SensorFlows");;
             ret (set_sensor_bucket (Some bucket) ctx)
         end;;

  (* Create NiFi Process Group *)
  url <- call NifiregGetUrl;;
  client <- call (VersioningCreateRegistryClient
                    "NiFi Registry" url "The registry...");;
  let ctx := set_reg_client (Some client) ctx in
  root <- getattr "root_pg" (root_pg ctx);;
  pg <- call (CanvasCreateProcessGroup root PG_NAME (330, 350));;
  let ctx := set_sensor_pg (Some pg) ctx in
  pg <- getattr "sensor_pg" (sensor_pg ctx);;
  client <- getattr "reg_client" (reg_client ctx);;
  bucket <- getattr "sensor_bucket" (sensor_bucket ctx);;
  flow <- call (NifiregSaveFlowVer pg client bucket
                  (Some "SensorProcessGroup") None
                  ("Enabled version control - " +:+ run_id));;
  let ctx := set_sensor_flow (Some flow) ctx in

  (* Update default SSL context controller service *)
  let ssl_svc_name := "Default NiFi SSL Context Service" in
  tls <- call IsTlsEnabled;;
  ctx <- (if tls : bool then
            pwd1 <- call GetThePwd;;
            pwd2 <- call GetThePwd;;
            pwd3 <- call GetThePwd;;
            let props :=
              [("SSL Protocol", Some "TLS");
               ("Truststore Type", Some "JKS");
               ("Truststore Filename",
                Some "/opt/cloudera/security/jks/truststore.jks");
               ("Truststore Password", Some pwd1);
               ("Keystore Type", Some "JKS");
               ("Keystore Filename",
                Some "/opt/cloudera/security/jks/keystore.jks");
               ("Keystore Password", Some pwd2);
               ("key-password", Some pwd3)] in
            svc <- call (CanvasGetController ssl_svc_name "name");;
            let ctx := set_ssl_svc svc ctx in
            match ssl_svc ctx with
            | Some svc =>
                call (CanvasScheduleController svc false);;;
                svc <- call (CanvasGetController ssl_svc_name "name");;
                let ctx := set_ssl_svc svc ctx in
                svc <- getattr "ssl_svc" (ssl_svc ctx);;
                call (CanvasUpdateController svc props);;;
                svc <- call (CanvasGetController ssl_svc_name "name");;
                let ctx := set_ssl_svc svc ctx in
                svc <- getattr "ssl_svc" (ssl_svc ctx);;
                call (CanvasScheduleController svc true);;;
                ret ctx
            | None =>
                root <- getattr "root_pg" (root_pg ctx);;
                svc <- call (NfCreateController root
                       "org.apache.nifi.ssl.StandardRestrictedSSLContextService"
                       props true (Some ssl_svc_name));;
                ret (set_keytab_svc (Some svc) ctx)
            end
          else ret ctx);;

  (* Create controller services *)
  tls <- call IsTlsEnabled;;
  ctx <- (if tls : bool then
            svc <- call (CanvasGetController ssl_svc_name "name");;
            let ctx := set_ssl_svc svc ctx in
            let props := [("Kerberos Keytab", Some "/keytabs/admin.keytab");
                          ("Kerberos Principal", Some "admin")] in
            pg <- getattr "sensor_pg" (sensor_pg ctx);;
            svc <- call (NfCreateController pg
                           "org.apache.nifi.kerberos.KeytabCredentialsService"
                           props true None);;
            ret (set_keytab_svc (Some svc) ctx)
          else
            ret (set_keytab_svc None (set_ssl_svc None ctx)));;

  url <- call SchregGetApiUrl;;
  let props := [("url", Some url)] in
  tls <- call IsTlsEnabled;;
  props <- (if tls : bool then
              keytab_id <- attr_id "keytab_svc" (keytab_svc ctx);;
              ssl_id <- attr_id "ssl_svc" (ssl_svc ctx);;
              ret (dict_update props
                     [("kerberos-credentials-service", Some keytab_id);
                      ("ssl-context-service", Some ssl_id)])
            else ret props);;
  pg <- getattr "sensor_pg" (sensor_pg ctx);;
  svc <- call (NfCreateController pg
           "org.apache.nifi.schemaregistry.hortonworks.HortonworksSchemaRegistry"
           props true None);;
  let ctx := set_sr_svc (Some svc) ctx in
  pg <- getattr "sensor_pg" (sensor_pg ctx);;
  sr_id <- attr_id "sr_svc" (sr_svc ctx);;
  svc <- call (NfCreateController pg "org.apache.nifi.json.JsonTreeReader"
                 [("schema-access-strategy", Some "schema-name");
                  ("schema-registry", Some sr_id)]
                 true None);;
  let ctx := set_json_reader_svc (Some svc) ctx in
  pg <- getattr "sensor_pg" (sensor_pg ctx);;
  sr_id <- attr_id "sr_svc" (sr_svc ctx);;
  svc <- call (NfCreateController pg "org.apache.nifi.json.JsonRecordSetWriter"
                 [("schema-access-strategy", Some "schema-name");
                  ("schema-registry", Some sr_id);
                  ("Schema Write Strategy", Some "hwx-schema-ref-attributes")]
                 true None);;
  let ctx := set_json_writer_svc (Some svc) ctx in
  pg <- getattr "sensor_pg" (sensor_pg ctx);;
  sr_id <- attr_id "sr_svc" (sr_svc ctx);;
  svc <- call (NfCreateController pg "org.apache.nifi.avro.AvroRecordSetWriter"
                 [("schema-access-strategy", Some "schema-name");
                  ("schema-registry", Some sr_id);
                  ("Schema Write Strategy", Some "hwx-content-encoded-schema")]
                 true None);;
  let ctx := set_avro_writer_svc (Some svc) ctx in

  (* Create flow *)
  pg_id <- attr_id "sensor_pg" (sensor_pg ctx);;
  sensor_port <- call (CanvasCreatePort pg_id "INPUT_PORT" "Sensor Data"
                         "STOPPED" (0, 0));;

  pg <- getattr "sensor_pg" (sensor_pg ctx);;
  upd_attr <- call (NfCreateProcessor pg "Set Schema Name"
                      (TypeName
                         "org.apache.nifi.processors.attributes.UpdateAttribute")
                      (0, 100)
                      (mkProcConfig [("schema.name", Some "SensorReading")]
                                    None));;
  call (CanvasCreateConnection sensor_port upd_attr None);;;

  reader_id <- attr_id "json_reader_svc" (json_reader_svc ctx);;
  writer_id <- attr_id "json_writer_svc" (json_writer_svc ctx);;
  let props := [("topic", Some "iot");
                ("record-reader", Some reader_id);
                ("record-writer", Some writer_id)] in
  common <- call (KafkaGetCommonClientProperties
                    ctx "producer" CONSUMER_GROUP_ID PRODUCER_CLIENT_ID);;
  let props := dict_update props common in
  pg <- getattr "sensor_pg" (sensor_pg ctx);;
  pub_kafka <- call (NfCreateProcessor pg "Publish to Kafka topic: iot"
                       PublishKafkaRecord (0, 300)
                       (mkProcConfig props (Some ["success"])));;
  call (CanvasCreateConnection upd_attr pub_kafka (Some ["success"]));;;

  pg_id <- attr_id "sensor_pg" (sensor_pg ctx);;
  fail_funnel <- call (NfCreateFunnel pg_id (600, 343));;
  call (CanvasCreateConnection pub_kafka fail_funnel (Some ["failure"]));;;

  (* Commit changes *)
  pg <- getattr "sensor_pg" (sensor_pg ctx);;
  client <- getattr "reg_client" (reg_client ctx);;
  bucket <- getattr "sensor_bucket" (sensor_bucket ctx);;
  flow <- getattr "sensor_flow" (sensor_flow ctx);;
  call (NifiregSaveFlowVer pg client bucket None (Some (vci_flow_id flow))
          ("First version - " +:+ run_id));;;

  (* Start flow *)
  root_id <- attr_id "root_pg" (root_pg ctx);;
  call (CanvasScheduleProcessGroup root_id true);;;

  (* Update "from Gateway" input port to connect to the process group *)
  gw <- getattr "from_gw" (from_gw ctx);;
  funnel <- getattr "temp_funnel" (temp_funnel ctx);;
  call (NfUpdateConnection gw funnel sensor_port);;;
  root_id <- attr_id "root_pg" (root_pg ctx);;
  call (CanvasScheduleComponents root_id true [sensor_port]);;;
  ret ctx.

(** The double quote character, for the string literals that hold one. *)
Definition q : string := String (Ascii.ascii_of_nat 34) EmptyString.

Definition request_body : string :=
  "concat('{" +:+ q +:+ "accessKey" +:+ q +:+ ":" +:+ q
    +:+ "', '${cdsw.access.key}', " +:+
  "'" +:+ q +:+ "," +:+ q +:+ "request" +:+ q +:+ ":{" +:+ q +:+ "feature"
    +:+ q +:+ ":" +:+ q +:+ "', /sensor_0, ', ', " +:+
  "/sensor_1, ', ', /sensor_2, ', ', /sensor_3, ', ', " +:+
  "/sensor_4, ', ', /sensor_5, ', ', /sensor_6, ', ', " +:+
  "/sensor_7, ', ', /sensor_8, ', ', /sensor_9, ', ', " +:+
  "/sensor_10, ', ', /sensor_11, '" +:+ q +:+ "}}')".

Definition lab4_rest_and_kudu (ctx : Context) : M Context :=
  (* Prepare Impala/Kudu table *)
  call KuduCreateTable;;;
  kudu_table_name <- call (KuduGetKuduTableName "default" "sensors");;

  (* Set required variables *)
  skip <- getattr "skip_cdsw" (ctx_skip_cdsw ctx);;
  (if negb skip then
     (* Set the variable with the CDSW access key *)
     pg <- getattr "sensor_pg" (sensor_pg ctx);;
     access_key <- call CdswGetModelAccessKey;;
     call (CanvasUpdateVariableRegistry pg [("cdsw.access.key", access_key)]);;;
     (* Set the variable with the CDSW model API key *)
     pg <- getattr "sensor_pg" (sensor_pg ctx);;
     api_key <- call CdswCreateModelApiKey;;
     call (CanvasUpdateVariableRegistry pg [("cdsw.model.api.key", api_key)])
   else ret tt);;;

  (* Create controllers *)
  pg <- getattr "sensor_pg" (sensor_pg ctx);;
  sr_id <- attr_id "sr_svc" (sr_svc ctx);;
  svc <- call (NfCreateController pg "org.apache.nifi.json.JsonTreeReader"
                 [("schema-access-strategy", Some "hwx-schema-ref-attributes");
                  ("schema-registry", Some sr_id)]
                 true (Some "JsonTreeReader - With schema identifier"));;
  let ctx := set_json_reader_with_schema_svc (Some svc) ctx in
  endpoint <- call CdswGetModelEndpointUrl;;
  reader_id <- attr_id "json_reader_svc" (json_reader_svc ctx);;
  let props := [("rest-lookup-url", Some endpoint);
                ("rest-lookup-record-reader", Some reader_id);
                ("rest-lookup-record-path", Some "/response");
                ("Authorization", Some "Bearer ${cdsw.model.api.key}")] in
  tls <- call IsTlsEnabled;;
  props <- (if tls : bool then
              ssl_id <- attr_id "ssl_svc" (ssl_svc ctx);;
              ret (dict_update props
                     [("rest-lookup-ssl-context-service", Some ssl_id)])
            else ret props);;
  pg <- getattr "sensor_pg" (sensor_pg ctx);;
  rest_lookup_svc <- call (NfCreateController pg
                             "org.apache.nifi.lookup.RestLookupService"
                             props true None);;

  (* Build flow *)
  pg_id <- attr_id "sensor_pg" (sensor_pg ctx);;
  fail_funnel <- call (NfCreateFunnel pg_id (1400, 340));;

  schema_reader_id <- attr_id "json_reader_with_schema_svc"
                        (json_reader_with_schema_svc ctx);;
  writer_id <- attr_id "json_writer_svc" (json_writer_svc ctx);;
  let props := [("topic", Some "iot");
                ("topic_type", Some "names");
                ("record-reader", Some schema_reader_id);
                ("record-writer", Some writer_id)] in
  common <- call (KafkaGetCommonClientProperties
                    ctx "consumer" CONSUMER_GROUP_ID PRODUCER_CLIENT_ID);;
  let props := dict_update props common in
  pg <- getattr "sensor_pg" (sensor_pg ctx);;
  consume_kafka <- call (NfCreateProcessor pg "Consume Kafka iot messages"
                           ConsumeKafkaRecord (700, 0)
                           (mkProcConfig props None));;
  call (CanvasCreateConnection consume_kafka fail_funnel
          (Some ["parse.failure"]));;;

  pg <- getattr "sensor_pg" (sensor_pg ctx);;
  schema_reader_id <- attr_id "json_reader_with_schema_svc"
                        (json_reader_with_schema_svc ctx);;
  writer_id <- attr_id "json_writer_svc" (json_writer_svc ctx);;
  predict <- call (NfCreateProcessor pg "Predict machine health"
                     (TypeName "org.apache.nifi.processors.standard.LookupRecord")
                     (700, 200)
                     (mkProcConfig
                        [("record-reader", Some schema_reader_id);
                         ("record-writer", Some writer_id);
                         ("lookup-service", Some (ent_id rest_lookup_svc));
                         ("result-record-path", Some "/response");
                         ("routing-strategy", Some "route-to-success");
                         ("result-contents", Some "insert-entire-record");
                         ("mime.type",
                          Some "toString('application/json', 'UTF-8')");
                         ("request.body", Some request_body);
                         ("request.method", Some "toString('post', 'UTF-8')")]
                        None));;
  call (CanvasCreateConnection predict fail_funnel (Some ["failure"]));;;
  call (CanvasCreateConnection consume_kafka predict (Some ["success"]));;;

  pg <- getattr "sensor_pg" (sensor_pg ctx);;
  schema_reader_id <- attr_id "json_reader_with_schema_svc"
                        (json_reader_with_schema_svc ctx);;
  writer_id <- attr_id "json_writer_svc" (json_writer_svc ctx);;
  update_health <- call (NfCreateProcessor pg "Update health flag"
                     (TypeName "org.apache.nifi.processors.standard.UpdateRecord")
                     (700, 400)
                     (mkProcConfig
                        [("record-reader", Some schema_reader_id);
                         ("record-writer", Some writer_id);
                         ("replacement-value-strategy",
                          Some "record-path-value");
                         ("/is_healthy", Some "/response/result")]
                        None));;
  call (CanvasCreateConnection update_health fail_funnel (Some ["failure"]));;;
  call (CanvasCreateConnection predict update_health (Some ["success"]));;;

  pg <- getattr "sensor_pg" (sensor_pg ctx);;
  hostname <- call GetHostname;;
  schema_reader_id <- attr_id "json_reader_with_schema_svc"
                        (json_reader_with_schema_svc ctx);;
  tls <- call IsTlsEnabled;;
  kerberos <- (if tls : bool then
                 keytab_id <- attr_id "keytab_svc" (keytab_svc ctx);;
                 ret (Some keytab_id)
               else ret None);;
  write_kudu <- call (NfCreateProcessor pg "Write to Kudu"
                        (TypeName "org.apache.nifi.processors.kudu.PutKudu")
                        (700, 600)
                        (mkProcConfig
                           [("Kudu Masters", Some (hostname +:+ ":7051"));
                            ("Table Name", Some kudu_table_name);
                            ("record-reader", Some schema_reader_id);
                            ("kerberos-credentials-service", kerberos)]
                           None));;
  call (CanvasCreateConnection write_kudu fail_funnel (Some ["failure"]));;;
  call (CanvasCreateConnection update_health write_kudu (Some ["success"]));;;

  schema_reader_id <- attr_id "json_reader_with_schema_svc"
                        (json_reader_with_schema_svc ctx);;
  writer_id <- attr_id "json_writer_svc" (json_writer_svc ctx);;
  let props := [("topic", Some "iot_enriched");
                ("record-reader", Some schema_reader_id);
                ("record-writer", Some writer_id)] in
  common <- call (KafkaGetCommonClientProperties
                    ctx "producer" CONSUMER_GROUP_ID PRODUCER_CLIENT_ID);;
  let props := dict_update props common in
  pg <- getattr "sensor_pg" (sensor_pg ctx);;
  pub_kafka_enriched <- call (NfCreateProcessor pg
                                "Publish to Kafka topic: iot_enriched"
                                PublishKafkaRecord (300, 600)
                                (mkProcConfig props
                                   (Some ["success"; "failure"])));;
  call (CanvasCreateConnection update_health pub_kafka_enriched
          (Some ["success"]));;;

  schema_reader_id <- attr_id "json_reader_with_schema_svc"
                        (json_reader_with_schema_svc ctx);;
  avro_id <- attr_id "avro_writer_svc" (avro_writer_svc ctx);;
  let props := [("topic", Some "iot_enriched_avro");
                ("record-reader", Some schema_reader_id);
                ("record-writer", Some avro_id)] in
  common <- call (KafkaGetCommonClientProperties
                    ctx "producer" CONSUMER_GROUP_ID PRODUCER_CLIENT_ID);;
  let props := dict_update props common in
  pg <- getattr "sensor_pg" (sensor_pg ctx);;
  pub_kafka_enriched_avro <- call (NfCreateProcessor pg
                                     "Publish to Kafka topic: iot_enriched_avro"
                                     PublishKafkaRecord (-100, 600)
                                     (mkProcConfig props
                                        (Some ["success"; "failure"])));;
  call (CanvasCreateConnection update_health pub_kafka_enriched_avro
          (Some ["success"]));;;

  pg <- getattr "sensor_pg" (sensor_pg ctx);;
  monitor_activity <- call (NfCreateProcessor pg "Monitor Activity"
                      (TypeName
                         "org.apache.nifi.processors.standard.MonitorActivity")
                      (700, 800)
                      (mkProcConfig
                         [("Threshold Duration", Some "45 secs");
                          ("Continually Send Messages", Some "true")]
                         (Some ["activity.restored"; "success"])));;
  call (CanvasCreateConnection monitor_activity fail_funnel
          (Some ["inactive"]));;;
  call (CanvasCreateConnection write_kudu monitor_activity (Some ["success"]));;;

  (* Version flow *)
  pg <- getattr "sensor_pg" (sensor_pg ctx);;
  client <- getattr "reg_client" (reg_client ctx);;
  bucket <- getattr "sensor_bucket" (sensor_bucket ctx);;
  flow <- getattr "sensor_flow" (sensor_flow ctx);;
  call (NifiregSaveFlowVer pg client bucket None (Some (vci_flow_id flow))
          ("Second version - " +:+ run_id));;;

  (* Start everything *)
  root_id <- attr_id "root_pg" (root_pg ctx);;
  call (CanvasScheduleProcessGroup root_id true);;;
  ret ctx.

End Script.

Arguments M W A : clear implicits.
Arguments ret {W A} a w.
Arguments bind {W A B} m f w.
Arguments raise {W A} e w.
Arguments diverge {W A} w.
Arguments call {W} respond c w.
Arguments log_debug {W} msg w.
Arguments try_except_ApiException {W A} m h w.
Arguments getattr {W A} attr o.
Arguments attr_id {W} attr o.
Arguments skip_cdsw {W} environ.
Arguments read_in_schema {W} respond environ uri.
Arguments before_setup {W} respond environ ctx.
Arguments after_setup {W} respond.
Arguments stop_controller {W} respond controller failed.
Arguments stop_controllers {W} respond controllers failed.
Arguments stop_pass {W} respond root_id.
Arguments stop_loop {W} respond fuel root_id.
Arguments teardown {W} respond fuel.
Arguments lab1_register_schema {W} respond environ.
Arguments lab2_nifi_flow {W} respond run_id ctx.
Arguments lab4_rest_and_kudu {W} respond run_id ctx.

(** ** Reading the result of a run *)

Definition outcome {W A} (r : Outcome A * W * list Event) : Outcome A := fst (fst r).
Definition final {W A} (r : Outcome A * W * list Event) : W := snd (fst r).
Definition events {W A} (r : Outcome A * W * list Event) : list Event := snd r.

(** The calls of a trace, in order. *)
Fixpoint calls (tr : list Event) : list Call :=
  match tr with
  | [] => []
  | Called c _ :: tr' => c :: calls tr'
  | Logged _ :: tr' => calls tr'
  end.

(** The exception the handler of [teardown] treats as a conflict. *)
Definition is_conflict (e : Exn) : bool :=
  match e with
  | ApiException status body =>
      (status =? 409) && contains "is referenced by" body
  | _ => false
  end.

(** A call [schedule_controller(controller, False)] that raised a
    conflict. *)
Definition conflict_event (ev : Event) : bool :=
  match ev with
  | Called (CanvasScheduleController _ false) (Some e) => is_conflict e
  | _ => false
  end.

(** The number of passes of the poll loop in a trace: each pass starts
    with one [list_all_controllers]. *)
Fixpoint passes (tr : list Event) : nat :=
  match tr with
  | [] => O
  | Called (CanvasListAllControllers _) _ :: tr' => S (passes tr')
  | _ :: tr' => passes tr'
  end.

(** ** The workshop's methods as steps of a run

    The runner that calls the methods is [AbstractWorkshop]'s and not in
    this file; a run is any sequence of the methods, threading
    [self.context]. *)
Inductive Method :=
| BeforeSetup
| Lab1RegisterSchema
| Lab2NifiFlow
| Lab4RestAndKudu
| AfterSetup
| Teardown (fuel : nat).

Definition run_method {W} (respond : forall c : Call, W -> (Exn + ret_type c) * W)
    (environ : gmap string string) (run_id : string)
    (m : Method) (ctx : Context) : M W Context :=
  match m with
  | BeforeSetup => before_setup respond environ ctx
  | Lab1RegisterSchema =>
      bind (lab1_register_schema respond environ) (fun _ => ret ctx)
  | Lab2NifiFlow => lab2_nifi_flow respond run_id ctx
  | Lab4RestAndKudu => lab4_rest_and_kudu respond run_id ctx
  | AfterSetup => bind (after_setup respond) (fun _ => ret ctx)
  | Teardown fuel => bind (teardown respond fuel) (fun _ => ret ctx)
  end.

Fixpoint run_methods {W} (respond : forall c : Call, W -> (Exn + ret_type c) * W)
    (environ : gmap string string) (run_id : string)
    (ms : list Method) (ctx : Context) : M W Context :=
  match ms with
  | [] => ret ctx
  | m :: ms' =>
      bind (run_method respond environ run_id m ctx)
           (run_methods respond environ run_id ms')
  end.

(** The labs in the order of their numbers, between the two hooks. *)
Definition setup_methods : list Method :=
  [BeforeSetup; Lab1RegisterSchema; Lab2NifiFlow; Lab4RestAndKudu; AfterSetup].

(** ** What a call creates

    The kind of remote object a call creates, read off the SDK function
    it names; [None] for the calls that read, update, schedule or
    delete. *)
Inductive Resource :=
| RegistryBucket | RegistryClient | ProcessGroup | FlowVersion
| ControllerService | Port | Processor | Connection | Funnel
| Schema | KuduTable | ModelApiKey | KafkaTopic.

Definition creates (c : Call) : option Resource :=
  match c with
  | VersioningCreateRegistryBucket _ => Some RegistryBucket
  | VersioningCreateRegistryClient _ _ _ => Some RegistryClient
  | CanvasCreateProcessGroup _ _ _ => Some ProcessGroup
  | NifiregSaveFlowVer _ _ _ _ _ _ => Some FlowVersion
  | NfCreateController _ _ _ _ _ => Some ControllerService
  | CanvasCreatePort _ _ _ _ _ => Some Port
  | NfCreateProcessor _ _ _ _ _ => Some Processor
  | CanvasCreateConnection _ _ _ => Some Connection
  | NfCreateFunnel _ _ => Some Funnel
  | SchregCreateSchema _ _ _ => Some Schema
  | KuduCreateTable => Some KuduTable
  | CdswCreateModelApiKey => Some ModelApiKey
  | _ => None
  end.

(** The Kafka topic a call names: the ['topic'] property of a processor
    configuration. *)
Definition topic_of (c : Call) : option string :=
  match c with
  | NfCreateProcessor _ _ _ _ cfg =>
      match dict_get "topic" (properties cfg) with
      | Some (Some t) => Some t
      | _ => None
      end
  | _ => None
  end.

(** The calls into the helper module [kafka]. *)
Definition kafka_call (c : Call) : bool :=
  match c with
  | KafkaGetCommonClientProperties _ _ _ _ => true
  | _ => false
  end.

(** ** A simulated installation

    A small deterministic world to run the script on.  [script] is
    consumed one entry per call: [Some e] makes that call raise [e].
    Stopping the schema-registry controller conflicts while [references]
    is positive (each attempt releases one reference), and always when
    [stubborn] is set. *)
Record Sim := mkSim {
  script : list (option Exn);
  references : nat;
  stubborn : bool;
  have_bucket : bool;
  have_client : bool;
  tls_enabled : bool;
  files : list (string * string);
  http : Response
}.

Definition root_entity := mkEntity "root" "NiFi Flow".
Definition sr_controller := mkEntity "sr" "HortonworksSchemaRegistry".
Definition reader_controller := mkEntity "reader" "JsonTreeReader".
Definition sensor_bucket_entity := mkEntity "bucket" "SensorFlows".
Definition registry_client_entity := mkEntity "client" "NiFi Registry".

Definition conflict_409 : Exn :=
  ApiException 409 "sr cannot be disabled because it is referenced by reader".

Definition file_lookup (path : string) (fs : list (string * string)) : option string :=
  snd <$> List.find (fun kv => String.eqb path (fst kv)) fs.

(** The value a call returns in the simulation when it does not raise. *)
Definition sim_value (c : Call) (s : Sim) : ret_type c :=
  match c as c0 return ret_type c0 with
  | IsTlsEnabled => tls_enabled s
  | GetThePwd => "secret"
  | GetHostname => "edge2ai-1.local"
  | OsPathExists path => bool_decide (is_Some (file_lookup path (files s)))
  | OpenRead path => default "" (file_lookup path (files s))
  | RequestsGet _ => http s
  | NfSetEnvironment => (root_entity, "efm-pg", "efm-flow")
  | NfCreateController _ cls _ _ name => mkEntity cls (default cls name)
  | NfCreateProcessor _ name _ _ _ => mkEntity name name
  | NfCreateFunnel _ _ => mkEntity "funnel" "funnel"
  | CanvasListAllControllers _ => [sr_controller; reader_controller]
  | CanvasCreateProcessGroup _ name _ => mkEntity name name
  | CanvasCreatePort _ _ name _ _ => mkEntity name name
  | CanvasGetController ident _ =>
      if tls_enabled s then Some (mkEntity ident ident) else None
  | VersioningGetRegistryClient _ =>
      if have_client s then Some registry_client_entity else None
  | VersioningGetRegistryBucket _ =>
      if have_bucket s then Some sensor_bucket_entity else None
  | VersioningCreateRegistryBucket _ => sensor_bucket_entity
  | VersioningCreateRegistryClient _ _ _ => registry_client_entity
  | NifiregGetUrl => "http://edge2ai-1.local:18080"
  | SchregGetApiUrl => "http://edge2ai-1.local:7788/api/v1"
  | NifiregSaveFlowVer _ _ _ _ _ _ => mkVersionedFlow "flow-1"
  | KafkaGetCommonClientProperties _ client_type group_id client_id =>
      [("bootstrap.servers", Some "edge2ai-1.local:9092");
       ("client.id", Some client_id)]
  | KuduGetKuduTableName database table => database +:+ "." +:+ table
  | CdswGetModelAccessKey => "access-key"
  | CdswCreateModelApiKey => "api-key"
  | CdswGetModelEndpointUrl => "http://cdsw.local/api/altus-ds-1/models/call-model"
  | _ => tt
  end.

Definition set_script (sc : list (option Exn)) (s : Sim) : Sim :=
  mkSim sc (references s) (stubborn s) (have_bucket s) (have_client s)
        (tls_enabled s) (files s) (http s).

(** The effect of a call that returned on the simulated installation. *)
Definition sim_effect (c : Call) (s : Sim) : Sim :=
  match c with
  | VersioningCreateRegistryBucket _ =>
      mkSim (script s) (references s) (stubborn s) true (have_client s)
            (tls_enabled s) (files s) (http s)
  | VersioningCreateRegistryClient _ _ _ =>
      mkSim (script s) (references s) (stubborn s) (have_bucket s) true
            (tls_enabled s) (files s) (http s)
  | VersioningDeleteRegistryClient _ =>
      mkSim (script s) (references s) (stubborn s) (have_bucket s) false
            (tls_enabled s) (files s) (http s)
  | _ => s
  end.

(** Whether stopping a controller conflicts now, and the world after the
    attempt. *)
Definition sim_conflict (c : Call) (s : Sim) : option Sim :=
  match c with
  | CanvasScheduleController controller false =>
      if String.eqb (ent_id controller) "sr" then
        if stubborn s then Some s
        else match references s with
             | O => None
             | S n =>
                 Some (mkSim (script s) n (stubborn s) (have_bucket s)
                         (have_client s) (tls_enabled s) (files s) (http s))
             end
      else None
  | _ => None
  end.

Definition sim_respond (c : Call) (s : Sim) : (Exn + ret_type c) * Sim :=
  match script s with
  | Some e :: rest => (inl e, set_script rest s)
  | rest =>
      let s := set_script (tail rest) s in
      match sim_conflict c s with
      | Some s' => (inl conflict_409, s')
      | None => (inr (sim_value c s), sim_effect c s)
      end
  end.

Definition quiet : Sim :=
  mkSim [] 0 false false false false [] (mkResponse 200 "{}").

(** [n] references to release before the controllers stop. *)
Definition referenced (n : nat) : Sim :=
  mkSim [] n false false true false [] (mkResponse 200 "{}").

(** A controller that never stops. *)
Definition stuck : Sim :=
  mkSim [] 0 true false true false [] (mkResponse 200 "{}").

(** The [k]-th call (from 0) raises [e]. *)
Definition failing_at (k : nat) (e : Exn) (s : Sim) : Sim :=
  set_script (replicate k None ++ [Some e]) s.

(** A context as the prerequisite workshop ['edge'] leaves it: the two
    attributes [lab2_nifi_flow] reads without setting them. *)
Definition edge_context : Context :=
  mkContext None None None None None None None None None None None None None
            None None
            (Some (mkEntity "from-gw" "from Gateway"))
            (Some (mkEntity "temp-funnel" "funnel")).

(** The call that stops a controller, and the calls the poll loop of
    [teardown] makes for the process group [root_id]. *)
Definition stop_call (controller : Entity) : Call :=
  CanvasScheduleController controller false.

Definition loop_call (root_id : string) (c : Call) : Prop :=
  c = CanvasListAllControllers root_id \/ exists controller, c = stop_call controller.

(** The exceptions the [try] of [teardown] takes: an [ApiException]
    raised by [schedule_controller(controller, False)]. *)
Definition caught (c : Call) (e : Exn) : bool :=
  match c, e with
  | CanvasScheduleController _ false, ApiException _ _ => true
  | _, _ => false
  end.

(** An event after which the script goes on: a log line, a call that
    returned, or a call whose exception was caught. *)
Definition passed (ev : Event) : bool :=
  match ev with
  | Logged _ => true
  | Called _ None => true
  | Called c (Some e) => caught c e
  end.

(** The whole of [teardown] outside the poll loop, as the list of calls
    of a run that completes; [loop] are the calls of the poll loop and
    [client] is what [get_registry_client] returned. *)
Definition teardown_calls (root : Entity) (flow : string)
    (loop : list Call) (client : option Entity) : list Call :=
  [NfSetEnvironment; CanvasScheduleProcessGroup (ent_id root) false]
  ++ loop
  ++ [NfDeleteAll root; EfmDeleteAll flow; SchregDeleteAllSchemas;
      VersioningGetRegistryClient "NiFi Registry"]
  ++ match client with
     | Some c => [VersioningDeleteRegistryClient c]
     | None => []
     end
  ++ [NifiregDeleteFlows "SensorFlows"; KuduDropTable;
      CdswDeleteAllModelApiKeys].

(** The claim that the poll loop is bounded: some number of passes is
    enough for the loop to have ended, whatever the services answer. *)
Definition poll_loop_bounded : Prop :=
  exists bound : nat,
    forall (W : Type) (respond : forall c : Call, W -> (Exn + ret_type c) * W)
           (root_id : string) (w : W),
      outcome (stop_loop respond bound root_id w) <> Diverge.

(** The claim that some setup run creates a Kafka topic. *)
Definition some_run_creates_topic : Prop :=
  exists (W : Type) (respond : forall c : Call, W -> (Exn + ret_type c) * W)
         (environ : gmap string string) (run_id : string)
         (ms : list Method) (ctx : Context) (w : W) (c : Call),
    In c (calls (events (run_methods respond environ run_id ms ctx w)))
    /\ creates c = Some KafkaTopic.

(** A run in which nothing follows an exception that was not caught:
    every event but the last one passed, and a run that raises [e] ends
    with the call that raised [e]. *)
Definition stops_at_first_uncaught {W A} (r : Outcome A * W * list Event) : Prop :=
  match outcome r with
  | Raise e =>
      exists tr c,
        events r = tr ++ [Called c (Some e)]
        /\ caught c e = false /\ forallb passed tr = true
  | _ => forallb passed (events r) = true
  end.

(** Counting the calls of a kind in a trace. *)
Definition count_calls (p : Call -> bool) (tr : list Event) : nat :=
  length (List.filter p (calls tr)).

Definition is_kudu_drop_table (c : Call) : bool :=
  match c with KuduDropTable => true | _ => false end.

Definition is_cdsw_delete_all_model_api_keys (c : Call) : bool :=
  match c with CdswDeleteAllModelApiKeys => true | _ => false end.

(** The events of the poll loop: its calls and its log lines. *)
Definition loop_event (root_id : string) (ev : Event) : Prop :=
  match ev with
  | Called c _ => loop_call root_id c
  | Logged _ => True
  end.

(** The calls that set up CDSW access in [lab4_rest_and_kudu]. *)
Definition cdsw_setup_call (c : Call) : bool :=
  match c with
  | CanvasUpdateVariableRegistry _ _ => true
  | CdswGetModelAccessKey => true
  | CdswCreateModelApiKey => true
  | _ => false
  end.

Definition no_cdsw_setup (ev : Event) : Prop :=
  match ev with
  | Called c _ => cdsw_setup_call c = false
  | Logged _ => True
  end.

(** With the bucket [b] at hand: no bucket is created, and a flow
    version is saved into [b]. *)
Definition uses_bucket (b : Entity) (ev : Event) : Prop :=
  match ev with
  | Called (VersioningCreateRegistryBucket _) _ => False
  | Called (NifiregSaveFlowVer _ _ bucket _ _ _) _ => bucket = b
  | _ => True
  end.

(** A processor configuration holds a ['topic'] property only for the
    Kafka record processors. *)
Definition topic_only_in_kafka_processor (ev : Event) : Prop :=
  match ev with
  | Called (NfCreateProcessor _ _ ptype _ cfg) _ =>
      dict_get "topic" (properties cfg) = None
      \/ ptype = PublishKafkaRecord \/ ptype = ConsumeKafkaRecord
  | _ => True
  end.

(** An installation where the ['SensorFlows'] bucket exists already. *)
Definition with_bucket : Sim :=
  mkSim [] 0 false true false false [] (mkResponse 200 "{}").

(** An installation with a local schema file, and one where the schema
    URI is not served. *)
Definition with_schema_file : Sim :=
  mkSim [] 0 false false false false
        [("/tmp/sensor.avsc", "{schema}")] (mkResponse 200 "{}").

Definition without_schema : Sim :=
  mkSim [] 0 false false false false [] (mkResponse 404 "Not Found").

(** A pass of the poll loop in which the schema-registry controller is
    still referenced, and a pass in which both controllers stop. *)
Definition conflict_pass : list Event :=
  [Called (CanvasListAllControllers "root") None;
   Called (stop_call sr_controller) (Some conflict_409);
   Logged "Controller HortonworksSchemaRegistry failed to stop. Will retry later.";
   Called (stop_call reader_controller) None;
   Logged "Controller JsonTreeReader stopped."].

Definition clean_pass : list Event :=
  [Called (CanvasListAllControllers "root") None;
   Called (stop_call sr_controller) None;
   Logged "Controller HortonworksSchemaRegistry stopped.";
   Called (stop_call reader_controller) None;
   Logged "Controller JsonTreeReader stopped."].

(** The full setup on the quiet installation. *)
Definition quiet_setup : Outcome Context * Sim * list Event :=
  run_methods sim_respond ∅ "run-1" setup_methods edge_context quiet.

(** [emits P m Q]: from every world, every event of [m] satisfies [P],
    and a value [m] returns satisfies [Q]. *)
Definition emits {W A} (P : Event -> Prop) (m : M W A) (Q : A -> Prop) : Prop :=
  forall w, Forall P (events (m w)) /\ forall a, outcome (m w) = Ok a -> Q a.

(** A program all of whose runs stop at their first uncaught exception. *)
Definition clean {W A} (m : M W A) : Prop :=
  forall w, stops_at_first_uncaught (m w).

(** ** Values the services returned

    [returned respond c v]: in some world the call [c] returns [v]. *)
Definition returned {W} (respond : forall c : Call, W -> (Exn + ret_type c) * W)
    (c : Call) (v : ret_type c) : Prop :=
  exists w w', respond c w = (inr v, w').

(** What [teardown] may touch: the root process group and the flow of
    [set_environment], the controllers listed for that group, and the
    registry client that was looked up. *)
Definition teardown_target {W}
    (respond : forall c : Call, W -> (Exn + ret_type c) * W) (ev : Event) : Prop :=
  match ev with
  | Called (CanvasScheduleProcessGroup pg_id scheduled) _ =>
      scheduled = false
      /\ exists root efm flow,
          returned respond NfSetEnvironment (root, efm, flow)
          /\ pg_id = ent_id root
  | Called (CanvasListAllControllers pg_id) _ =>
      exists root efm flow,
        returned respond NfSetEnvironment (root, efm, flow)
        /\ pg_id = ent_id root
  | Called (CanvasScheduleController controller scheduled) _ =>
      scheduled = false
      /\ exists root efm flow controllers,
          returned respond NfSetEnvironment (root, efm, flow)
          /\ returned respond (CanvasListAllControllers (ent_id root)) controllers
          /\ In controller controllers
  | Called (NfDeleteAll pg) _ =>
      exists efm flow, returned respond NfSetEnvironment (pg, efm, flow)
  | Called (EfmDeleteAll flow) _ =>
      exists root efm, returned respond NfSetEnvironment (root, efm, flow)
  | Called (VersioningGetRegistryClient name) _ => name = "NiFi Registry"
  | Called (VersioningDeleteRegistryClient client) _ =>
      returned respond (VersioningGetRegistryClient "NiFi Registry") (Some client)
  | Called (NifiregDeleteFlows bucket_name) _ => bucket_name = "SensorFlows"
  | Called NfSetEnvironment _ | Called SchregDeleteAllSchemas _
  | Called KuduDropTable _ | Called CdswDeleteAllModelApiKeys _ => True
  | Called _ _ => False
  | Logged _ => True
  end.

Definition is_create_registry_bucket (c : Call) : bool :=
  match c with VersioningCreateRegistryBucket _ => true | _ => false end.

(** [is_tls_enabled()] answers [False] (resp. [True]) whenever it
    answers. *)
Definition tls_off {W} (respond : forall c : Call, W -> (Exn + ret_type c) * W) : Prop :=
  forall w v w', respond IsTlsEnabled w = (inr v, w') -> v = false.

Definition tls_on {W} (respond : forall c : Call, W -> (Exn + ret_type c) * W) : Prop :=
  forall w v w', respond IsTlsEnabled w = (inr v, w') -> v = true.

(** The calls the labs make only under TLS. *)
Definition tls_call (c : Call) : bool :=
  match c with
  | GetThePwd | CanvasGetController _ _ | CanvasUpdateController _ _
  | CanvasScheduleController _ _ => true
  | _ => false
  end.

(** An event of a lab that sets up nothing for TLS: none of the calls
    above, no SSL or Kerberos service in the properties of a controller
    service, and [None] as the Kerberos service of the Kudu writer. *)
Definition no_tls_setup (ev : Event) : Prop :=
  match ev with
  | Called (NfCreateController _ _ props _ _) _ =>
      dict_get "kerberos-credentials-service" props = None
      /\ dict_get "ssl-context-service" props = None
      /\ dict_get "rest-lookup-ssl-context-service" props = None
  | Called (NfCreateProcessor _ name _ _ cfg) _ =>
      name = "Write to Kudu" ->
      dict_get "kerberos-credentials-service" (properties cfg) = Some None
  | Called c _ => tls_call c = false
  | Logged _ => True
  end.

(** The topics the labs name. *)
Definition lab_topics : list string := ["iot"; "iot_enriched"; "iot_enriched_avro"].

Definition names_lab_topic (ev : Event) : Prop :=
  match ev with
  | Called (NfCreateProcessor _ _ _ _ cfg) _ =>
      dict_get "topic" (properties cfg) = None
      \/ exists t, dict_get "topic" (properties cfg) = Some (Some t)
                   /\ In t lab_topics
  | _ => True
  end.

(** What [lab4_rest_and_kudu] builds on, read from [self.context]. *)
Definition in_sensor_pg (ctx : Context) (ev : Event) : Prop :=
  match ev with
  | Called (NfCreateController pg _ _ _ _) _
  | Called (NfCreateProcessor pg _ _ _ _) _
  | Called (CanvasUpdateVariableRegistry pg _) _ => sensor_pg ctx = Some pg
  | Called (NfCreateFunnel pg_id _) _ =>
      exists pg, sensor_pg ctx = Some pg /\ pg_id = ent_id pg
  | Called (NifiregSaveFlowVer pg client bucket _ _ _) _ =>
      sensor_pg ctx = Some pg /\ reg_client ctx = Some client
      /\ sensor_bucket ctx = Some bucket
  | Called (CanvasScheduleProcessGroup pg_id _) _ =>
      exists root, root_pg ctx = Some root /\ pg_id = ent_id root
  | _ => True
  end.

(** The simulated installation with [is_tls_enabled()] fixed. *)
Definition force_tls (b : bool) (s : Sim) : Sim :=
  mkSim (script s) (references s) (stubborn s) (have_bucket s) (have_client s)
        b (files s) (http s).

Definition sim_respond_tls (b : bool) (c : Call) (s : Sim) : (Exn + ret_type c) * Sim :=
  sim_respond c (force_tls b s).

(** The process group [lab2_nifi_flow] creates under the root group of
    [ctx]. *)
Definition created_pg {W} (respond : forall c : Call, W -> (Exn + ret_type c) * W)
    (ctx : Context) (pg : Entity) : Prop :=
  exists root,
    root_pg ctx = Some root
    /\ returned respond (CanvasCreateProcessGroup root PG_NAME (330, 350)) pg.

(** What [lab2_nifi_flow] builds in. *)
Definition in_created_pg {W}
    (respond : forall c : Call, W -> (Exn + ret_type c) * W)
    (ctx : Context) (ev : Event) : Prop :=
  match ev with
  | Called (CanvasCreateProcessGroup parent name _) _ =>
      root_pg ctx = Some parent /\ name = PG_NAME
  | Called (NfCreateProcessor pg _ _ _ _) _ => created_pg respond ctx pg
  | Called (NfCreateController pg cls _ _ _) _ =>
      created_pg respond ctx pg
      \/ (root_pg ctx = Some pg
          /\ cls = "org.apache.nifi.ssl.StandardRestrictedSSLContextService")
  | Called (CanvasCreatePort pg_id _ _ _ _) _
  | Called (NfCreateFunnel pg_id _) _ =>
      exists pg, created_pg respond ctx pg /\ pg_id = ent_id pg
  | Called (NifiregSaveFlowVer pg _ _ _ _ _) _ => created_pg respond ctx pg
  | Called (CanvasScheduleProcessGroup pg_id scheduled) _
  | Called (CanvasScheduleComponents pg_id scheduled _) _ =>
      scheduled = true /\ exists root, root_pg ctx = Some root /\ pg_id = ent_id root
  | _ => True
  end.

(** The contexts the quiet installation leaves after [before_setup],
    after lab2 and after lab4. *)
Definition context_of (r : Outcome Context * Sim * list Event) : Context :=
  match outcome r with
  | Ok ctx => ctx
  | _ => empty_context
  end.

Definition context_before_lab2 : Context :=
  context_of (run_methods sim_respond ∅ "run-1" [BeforeSetup] edge_context quiet).

Definition context_after_lab2 : Context :=
  context_of (lab2_nifi_flow sim_respond "run-1" context_before_lab2 quiet).

Definition context_after_lab4 : Context :=
  context_of (lab4_rest_and_kudu sim_respond "run-1" context_after_lab2 quiet).

(** The calls of a trace that name a topic. *)
Definition names_topic (c : Call) : bool :=
  match topic_of c with Some _ => true | None => false end.

Definition last_topic_call : Call :=
  List.last (List.filter names_topic (calls (events quiet_setup))) KuduDropTable.

(** * Properties *)

Section Properties.

Context {W : Type}.
Variable respond : forall c : Call, W -> (Exn + ret_type c) * W.

(** ** The monad *)

Lemma bind_ok_inv {A B} (m : M W A) (f : A -> M W B) w b w' tr :
  bind m f w = (Ok b, w', tr) ->
  exists a w1 tr1 tr2,
    m w = (Ok a, w1, tr1) /\ f a w1 = (Ok b, w', tr2) /\ tr = tr1 ++ tr2.
Proof.
  unfold bind. destruct (m w) as [[[a|e|] w1] tr1]; try discriminate.
  destruct (f a w1) as [[r w2] tr2] eqn:Hf. intros [= -> -> <-].
  exists a, w1, tr1, tr2. auto.
Qed.

Lemma bind_ok {A B} (m : M W A) (f : A -> M W B) w a w1 tr1 :
  m w = (Ok a, w1, tr1) ->
  bind m f w = (outcome (f a w1), final (f a w1), tr1 ++ events (f a w1)).
Proof.
  unfold bind. intros ->. destruct (f a w1) as [[r w2] tr2]. reflexivity.
Qed.

Lemma bind_raise {A B} (m : M W A) (f : A -> M W B) w e w1 tr1 :
  m w = (Raise e, w1, tr1) -> bind m f w = (Raise e, w1, tr1).
Proof. unfold bind. intros ->. reflexivity. Qed.

Lemma bind_diverge {A B} (m : M W A) (f : A -> M W B) w w1 tr1 :
  m w = (Diverge, w1, tr1) -> bind m f w = (Diverge, w1, tr1).
Proof. unfold bind. intros ->. reflexivity. Qed.

Lemma call_returns c w v w1 :
  respond c w = (inr v, w1) -> call respond c w = (Ok v, w1, [Called c None]).
Proof. unfold call. intros ->. reflexivity. Qed.

Lemma call_raises c w e w1 :
  respond c w = (inl e, w1) ->
  call respond c w = (Raise e, w1, [Called c (Some e)]).
Proof. unfold call. intros ->. reflexivity. Qed.

Lemma call_ok_inv c w v w' tr :
  call respond c w = (Ok v, w', tr) ->
  respond c w = (inr v, w') /\ tr = [Called c None].
Proof.
  unfold call. destruct (respond c w) as [[e|v'] w1]; intros [= <- <- <-]; auto.
Qed.

Lemma calls_app tr1 tr2 : calls (tr1 ++ tr2) = calls tr1 ++ calls tr2.
Proof.
  induction tr1 as [|[c r|msg] tr1 IH]; simpl; [reflexivity| |assumption].
  now rewrite IH.
Qed.

Lemma passes_app tr1 tr2 : passes (tr1 ++ tr2) = (passes tr1 + passes tr2)%nat.
Proof.
  induction tr1 as [|[c r|msg] tr1 IH]; simpl; [reflexivity| |assumption].
  destruct c; simpl; rewrite IH; reflexivity.
Qed.

Lemma In_calls c tr : In c (calls tr) <-> exists r, In (Called c r) tr.
Proof.
  induction tr as [|[c' r'|msg] tr IH]; simpl.
  - split; [tauto | intros [_ []]].
  - rewrite IH. split.
    + intros [->|[r Hr]]; eauto.
    + intros [r [[= -> ->]|Hr]]; eauto.
  - rewrite IH. split; intros [r Hr]; exists r; [auto | destruct Hr; [discriminate | assumption]].
Qed.

(** ** Triples: what a program emits and what it returns *)

Lemma emits_ret {A} P (a : A) (Q : A -> Prop) :
  Q a -> emits P (ret (W := W) a) Q.
Proof. intros Ha w. split; [constructor | intros a' [= <-]; exact Ha]. Qed.

Lemma emits_raise {A} P e (Q : A -> Prop) : emits P (raise (W := W) e) Q.
Proof. intros w. split; [constructor | discriminate]. Qed.

Lemma emits_diverge {A} P (Q : A -> Prop) : emits P (diverge (W := W)) Q.
Proof. intros w. split; [constructor | discriminate]. Qed.

Lemma emits_log P msg Q :
  P (Logged msg) -> Q tt -> emits P (log_debug (W := W) msg) Q.
Proof.
  intros Hp Hq w. split; [repeat constructor; exact Hp | intros [] _; exact Hq].
Qed.

Lemma emits_call P c (Q : ret_type c -> Prop) :
  (forall r, P (Called c r)) -> (forall v, Q v) -> emits P (call respond c) Q.
Proof.
  intros Hp Hq w. unfold call. destruct (respond c w) as [[e|v] w1]; simpl.
  - split; [repeat constructor; apply Hp | discriminate].
  - split; [repeat constructor; apply Hp | intros a _; apply Hq].
Qed.

Lemma emits_bind {A B} P (m : M W A) (f : A -> M W B) Q R :
  emits P m Q -> (forall a, Q a -> emits P (f a) R) -> emits P (bind m f) R.
Proof.
  intros Hm Hf w. destruct (Hm w) as [Hev Hq]. unfold bind.
  destruct (m w) as [[[a|e|] w1] tr1]; simpl in *.
  - specialize (Hf a (Hq a eq_refl) w1). destruct Hf as [Hev2 Hr].
    destruct (f a w1) as [[r w2] tr2]; simpl in *.
    split; [apply Forall_app; auto | exact Hr].
  - split; [exact Hev | discriminate].
  - split; [exact Hev | discriminate].
Qed.

Lemma emits_weaken {A} P (m : M W A) (Q Q' : A -> Prop) :
  emits P m Q -> (forall a, Q a -> Q' a) -> emits P m Q'.
Proof.
  intros Hm Hq w. destruct (Hm w) as [Hev Ha]. split; [exact Hev | auto].
Qed.

Lemma emits_getattr {A} P attr (o : option A) :
  emits P (getattr (W := W) attr o) (fun a => o = Some a).
Proof.
  destruct o as [a|]; simpl; [apply emits_ret; reflexivity | apply emits_raise].
Qed.

Lemma emits_attr_id P attr (o : option Entity) :
  emits P (attr_id (W := W) attr o) (fun _ => True).
Proof.
  unfold attr_id. eapply emits_bind; [apply emits_getattr|].
  intros a _. apply emits_ret. exact I.
Qed.

Lemma emits_try {A} P (m : M W A) (h : Z -> string -> M W A) Q :
  emits P m Q -> (forall status body, emits P (h status body) Q) ->
  emits P (try_except_ApiException m h) Q.
Proof.
  intros Hm Hh w. destruct (Hm w) as [Hev Hq]. unfold try_except_ApiException.
  destruct (m w) as [[[a|[status body|msg arg|attr|cls]|] w1] tr1]; simpl in *;
    try (split; [exact Hev | first [exact Hq | discriminate]]).
  destruct (Hh status body w1) as [Hev2 Hq2].
  destruct (h status body w1) as [[r w2] tr2]; simpl in *.
  split; [apply Forall_app; auto | exact Hq2].
Qed.

(** ** The poll loop of [teardown] *)

(** What one turn of the [for] loop does, by the answer to the call. *)
Lemma stop_controller_returns controller failed w u w1 :
  respond (stop_call controller) w = (inr u, w1) ->
  stop_controller respond controller failed w =
    (Ok failed, w1,
     [Called (stop_call controller) None;
      Logged ("Controller " +:+ component_name controller +:+ " stopped.")]).
Proof.
  intros H. unfold stop_controller, try_except_ApiException, bind, call, log_debug.
  unfold stop_call in H. rewrite H. reflexivity.
Qed.

Lemma stop_controller_conflict controller failed w status body w1 :
  respond (stop_call controller) w = (inl (ApiException status body), w1) ->
  is_conflict (ApiException status body) = true ->
  stop_controller respond controller failed w =
    (Ok true, w1,
     [Called (stop_call controller) (Some (ApiException status body));
      Logged ("Controller " +:+ component_name controller
              +:+ " failed to stop. Will retry later.")]).
Proof.
  intros H Hc. unfold stop_controller, try_except_ApiException, bind, call, log_debug.
  unfold stop_call in H. rewrite H. simpl in Hc |- *. rewrite Hc. reflexivity.
Qed.

Lemma stop_controller_dropped controller failed w status body w1 :
  respond (stop_call controller) w = (inl (ApiException status body), w1) ->
  is_conflict (ApiException status body) = false ->
  stop_controller respond controller failed w =
    (Ok failed, w1,
     [Called (stop_call controller) (Some (ApiException status body))]).
Proof.
  intros H Hc. unfold stop_controller, try_except_ApiException, bind, call, log_debug.
  unfold stop_call in H. rewrite H. simpl in Hc |- *. rewrite Hc. reflexivity.
Qed.

Lemma stop_controller_propagates controller failed w e w1 :
  respond (stop_call controller) w = (inl e, w1) ->
  (forall status body, e <> ApiException status body) ->
  stop_controller respond controller failed w =
    (Raise e, w1, [Called (stop_call controller) (Some e)]).
Proof.
  intros H Hne. unfold stop_controller, try_except_ApiException, bind, call, log_debug.
  unfold stop_call in H. rewrite H.
  destruct e as [status body| | |]; [destruct (Hne status body eq_refl) | | |];
    reflexivity.
Qed.

(** The four cases together: the calls of a turn, its flag, and what it
    leaves in the trace. *)
Lemma stop_controller_cases controller failed w :
  exists r w1 tr,
    stop_controller respond controller failed w = (r, w1, tr)
    /\ calls tr = [stop_call controller]
    /\ (forall b, r = Ok b -> b = failed || existsb conflict_event tr)
    /\ r <> Diverge
    /\ match r with
       | Raise e => tr = [Called (stop_call controller) (Some e)]
                    /\ caught (stop_call controller) e = false
       | _ => forallb passed tr = true
       end.
Proof.
  destruct (respond (stop_call controller) w) as [[e|u] w1] eqn:H.
  - destruct e as [status body|msg arg|attr|cls].
    + destruct (is_conflict (ApiException status body)) eqn:Hc.
      * eexists _, _, _. split; [apply stop_controller_conflict; eassumption|].
        simpl in Hc |- *. rewrite Hc. repeat split; try discriminate.
        intros b [= <-]. now rewrite orb_true_r.
      * eexists _, _, _. split; [apply stop_controller_dropped; eassumption|].
        simpl in Hc |- *. rewrite Hc. repeat split; try discriminate.
        intros b [= <-]. now rewrite orb_false_r.
    + eexists _, _, _. split; [apply stop_controller_propagates; [eassumption|discriminate]|].
      repeat split; discriminate.
    + eexists _, _, _. split; [apply stop_controller_propagates; [eassumption|discriminate]|].
      repeat split; discriminate.
    + eexists _, _, _. split; [apply stop_controller_propagates; [eassumption|discriminate]|].
      repeat split; discriminate.
  - eexists _, _, _. split; [eapply stop_controller_returns; eassumption|].
    simpl. repeat split; try discriminate.
    intros b [= <-]. now rewrite orb_false_r.
Qed.

Lemma existsb_conflict_app tr1 tr2 :
  existsb conflict_event (tr1 ++ tr2)
  = existsb conflict_event tr1 || existsb conflict_event tr2.
Proof. apply existsb_app. Qed.

(** A [for] loop that ran to its end made one stop call per controller,
    in order, and its flag tells whether one of them met a conflict. *)
Lemma stop_controllers_ok controllers : forall failed w b w' tr,
  stop_controllers respond controllers failed w = (Ok b, w', tr) ->
  calls tr = map stop_call controllers
  /\ b = failed || existsb conflict_event tr.
Proof.
  induction controllers as [|controller rest IH]; intros failed w b w' tr; simpl.
  - intros [= <- <- <-]. simpl. now rewrite orb_false_r.
  - intros H. apply bind_ok_inv in H.
    destruct H as (b1 & w1 & tr1 & tr2 & H1 & H2 & ->).
    destruct (stop_controller_cases controller failed w)
      as (r & w1' & tr1' & E & Hcalls & Hflag & _ & _).
    rewrite E in H1. injection H1 as -> -> ->.
    apply IH in H2. destruct H2 as [Hc2 ->].
    rewrite calls_app, Hcalls, Hc2, existsb_conflict_app.
    split; [reflexivity|]. rewrite (Hflag b1 eq_refl). now rewrite orb_assoc.
Qed.

Lemma passes_stop_calls tr : forall controllers,
  calls tr = map stop_call controllers -> passes tr = O.
Proof.
  induction tr as [|[c r|msg] tr IH]; intros cs Hc; simpl in *.
  - reflexivity.
  - destruct cs as [|c0 cs]; [discriminate|]. injection Hc as -> Hc.
    simpl. eauto.
  - eauto.
Qed.

(** A pass that ran to its end listed the controllers once and made one
    stop call for each of them; its flag is set exactly when one of
    these calls raised a conflict. *)
Lemma stop_pass_ok root_id w b w' tr :
  stop_pass respond root_id w = (Ok b, w', tr) ->
  exists controllers w1,
    respond (CanvasListAllControllers root_id) w = (inr controllers, w1)
    /\ calls tr = CanvasListAllControllers root_id :: map stop_call controllers
    /\ passes tr = 1%nat
    /\ b = existsb conflict_event tr.
Proof.
  unfold stop_pass. intros H. apply bind_ok_inv in H.
  destruct H as (controllers & w1 & tr1 & tr2 & H1 & H2 & ->).
  apply call_ok_inv in H1. destruct H1 as [H1 ->].
  apply stop_controllers_ok in H2. destruct H2 as [Hc ->].
  exists controllers, w1. simpl. rewrite Hc.
  rewrite (passes_stop_calls _ _ Hc). auto.
Qed.

(** The loop either stops after a pass or feeds the next one. *)
Lemma stop_loop_next fuel root_id w b w1 tr1 :
  stop_pass respond root_id w = (Ok b, w1, tr1) ->
  stop_loop respond (S fuel) root_id w =
    if b then
      (outcome (stop_loop respond fuel root_id w1),
       final (stop_loop respond fuel root_id w1),
       tr1 ++ events (stop_loop respond fuel root_id w1))
    else (Ok tt, w1, tr1).
Proof.
  intros H. simpl. rewrite (bind_ok _ _ _ _ _ _ H).
  destruct b; simpl; [reflexivity | now rewrite app_nil_r].
Qed.

Lemma bind_events {A B} (m : M W A) (f : A -> M W B) w :
  exists rest, events (bind m f w) = events (m w) ++ rest.
Proof.
  unfold bind. destruct (m w) as [[[a|e|] w1] tr1]; simpl.
  - destruct (f a w1) as [[r w2] tr2]. simpl. eauto.
  - exists []. now rewrite app_nil_r.
  - exists []. now rewrite app_nil_r.
Qed.

(** C1.  The poll loop of [teardown] leaves through its [break] only at
    the end of a complete pass (the controllers of the root process
    group listed, one [schedule_controller(controller, False)] for each
    of them) in which no such call raised the 409 ['is referenced by']
    conflict; and a pass that ran to its end with such a conflict is
    followed by another pass, which lists and stops the controllers
    again. *)
Theorem teardown_loop_exits_after_clean_pass :
  (forall fuel root_id w w' tr,
      stop_loop respond fuel root_id w = (Ok tt, w', tr) ->
      exists tr_before w_last tr_last controllers w1,
        tr = tr_before ++ tr_last
        /\ stop_pass respond root_id w_last = (Ok false, w', tr_last)
        /\ respond (CanvasListAllControllers root_id) w_last
           = (inr controllers, w1)
        /\ calls tr_last
           = CanvasListAllControllers root_id :: map stop_call controllers
        /\ existsb conflict_event tr_last = false)
  /\ (forall fuel root_id w b w1 tr1,
      stop_pass respond root_id w = (Ok b, w1, tr1) ->
      existsb conflict_event tr1 = true ->
      stop_loop respond (S fuel) root_id w
      = (outcome (stop_loop respond fuel root_id w1),
         final (stop_loop respond fuel root_id w1),
         tr1 ++ events (stop_loop respond fuel root_id w1))
      /\ exists rest,
          events (stop_loop respond (S (S fuel)) root_id w)
          = tr1 ++ events (stop_pass respond root_id w1) ++ rest).
Proof.
  split.
  - induction fuel as [|fuel IH]; intros root_id w w' tr H; [discriminate|].
    simpl in H. apply bind_ok_inv in H.
    destruct H as (b & w1 & tr1 & tr2 & Hpass & Hrest & ->).
    destruct b.
    + apply IH in Hrest.
      destruct Hrest as (tb & wl & tl & cs & w2 & -> & Hl & Hr & Hc & Hn).
      exists (tr1 ++ tb), wl, tl, cs, w2. rewrite app_assoc. auto.
    + injection Hrest as <- <-.
      destruct (stop_pass_ok _ _ _ _ _ Hpass) as (cs & w2 & Hr & Hc & _ & Hn).
      exists [], w, tr1, cs, w2. rewrite app_nil_r. auto.
  - intros fuel root_id w b w1 tr1 Hpass Hconf.
    destruct (stop_pass_ok _ _ _ _ _ Hpass) as (cs & w2 & Hr & Hc & _ & Hb).
    rewrite Hconf in Hb. subst b. split.
    + apply (stop_loop_next fuel _ _ _ _ _ Hpass).
    + rewrite (stop_loop_next (S fuel) _ _ _ _ _ Hpass). simpl events at 1.
      change (stop_loop respond (S fuel) root_id w1)
        with (bind (stop_pass respond root_id)
                (fun failed : bool =>
                   if failed then stop_loop respond fuel root_id else ret tt) w1).
      destruct (bind_events (stop_pass respond root_id)
                  (fun failed : bool =>
                     if failed then stop_loop respond fuel root_id else ret tt) w1)
        as [rest ->].
      exists rest. reflexivity.
Qed.

(** ** Exceptions in [teardown] *)


Lemma clean_ret {A} (a : A) : clean (ret (W := W) a).
Proof. intros w. reflexivity. Qed.

Lemma clean_log msg : clean (log_debug (W := W) msg).
Proof. intros w. reflexivity. Qed.

Lemma clean_call c : (forall e, caught c e = false) -> clean (call respond c).
Proof.
  intros Hc w. unfold stops_at_first_uncaught, call.
  destruct (respond c w) as [[e|v] w1]; simpl; [|reflexivity].
  exists [], c. auto.
Qed.

Lemma clean_bind {A B} (m : M W A) (f : A -> M W B) :
  clean m -> (forall a, clean (f a)) -> clean (bind m f).
Proof.
  unfold clean. intros Hm Hf w. specialize (Hm w).
  unfold stops_at_first_uncaught, bind, outcome, events in *.
  destruct (m w) as [[[a|e|] w1] tr1]; simpl in *; try assumption.
  specialize (Hf a w1). destruct (f a w1) as [[[b|e|] w2] tr2]; simpl in *.
  - rewrite forallb_app, Hm, Hf. reflexivity.
  - destruct Hf as (tr & c & -> & Hc & Hp). exists (tr1 ++ tr), c.
    rewrite forallb_app, Hm, Hp, app_assoc. auto.
  - rewrite forallb_app, Hm, Hf. reflexivity.
Qed.

Lemma clean_stop_controller controller failed :
  clean (stop_controller respond controller failed).
Proof.
  intros w. unfold stops_at_first_uncaught.
  destruct (stop_controller_cases controller failed w)
    as (r & w1 & tr & -> & _ & _ & Hd & Hr).
  simpl. destruct r as [b|e|]; try assumption.
  destruct Hr as [-> Hc]. exists [], (stop_call controller). auto.
Qed.

Lemma clean_stop_controllers controllers : forall failed,
  clean (stop_controllers respond controllers failed).
Proof.
  induction controllers as [|controller rest IH]; intros failed; simpl.
  - apply clean_ret.
  - apply clean_bind; [apply clean_stop_controller | intros b; apply IH].
Qed.

Lemma clean_stop_pass root_id : clean (stop_pass respond root_id).
Proof.
  apply clean_bind; [apply clean_call; reflexivity|].
  intros cs. apply clean_stop_controllers.
Qed.

Lemma clean_stop_loop fuel root_id : clean (stop_loop respond fuel root_id).
Proof.
  induction fuel as [|fuel IH]; simpl.
  - intros w. reflexivity.
  - apply clean_bind; [apply clean_stop_pass|].
    intros [|]; [exact IH | apply clean_ret].
Qed.

Lemma clean_teardown fuel : clean (teardown respond fuel).
Proof.
  unfold teardown.
  apply clean_bind; [apply clean_call; reflexivity|]. intros [[root efm] flow].
  apply clean_bind; [apply clean_call; reflexivity|]. intros _.
  apply clean_bind; [apply clean_stop_loop|]. intros _.
  apply clean_bind; [apply clean_call; reflexivity|]. intros _.
  apply clean_bind; [apply clean_call; reflexivity|]. intros _.
  apply clean_bind; [apply clean_call; reflexivity|]. intros _.
  apply clean_bind; [apply clean_call; reflexivity|]. intros client.
  apply clean_bind.
  { destruct client as [c|];
      [apply (clean_call (VersioningDeleteRegistryClient c)); reflexivity
      | apply clean_ret]. }
  intros _.
  apply clean_bind; [apply clean_call; reflexivity|]. intros _.
  apply clean_bind; [apply clean_call; reflexivity|]. intros _.
  apply (clean_call CdswDeleteAllModelApiKeys); reflexivity.
Qed.

(** In a run that stops at its first uncaught exception, an uncaught
    exception is the last event and the outcome of the run. *)
Lemma uncaught_is_last {A} (r : Outcome A * W * list Event) tr1 c e tr2 :
  stops_at_first_uncaught r ->
  events r = tr1 ++ Called c (Some e) :: tr2 ->
  caught c e = false ->
  outcome r = Raise e /\ tr2 = [].
Proof.
  unfold stops_at_first_uncaught. intros Hr Hev Hc.
  assert (Hnp : forall tr, forallb passed tr = true ->
                  tr <> tr1 ++ Called c (Some e) :: tr2).
  { intros tr Hp ->. rewrite forallb_app in Hp. simpl in Hp.
    rewrite Hc in Hp. rewrite andb_false_r in Hp. discriminate. }
  destruct (outcome r) as [a|e'|].
  - destruct (Hnp _ Hr Hev).
  - destruct Hr as (tr & c' & Htr & Hc' & Hp). rewrite Hev in Htr.
    clear Hev Hnp. revert tr Htr Hp.
    induction tr1 as [|ev tr1 IH]; intros tr Htr Hp; simpl in *.
    + destruct tr as [|ev' tr]; simpl in *.
      * injection Htr as -> -> ->. auto.
      * injection Htr as <- Htr. simpl in Hp. rewrite Hc in Hp. discriminate.
    + destruct tr as [|ev' tr]; simpl in *.
      * injection Htr as -> Htr. destruct tr1; discriminate.
      * injection Htr as <- Htr. apply andb_prop in Hp. destruct Hp as [_ Hp].
        eapply IH; eassumption.
  - destruct (Hnp _ Hr Hev).
Qed.

(** C3 (as amended).  The [try] of [teardown] takes every
    [ApiException] raised by [schedule_controller(controller, False)]:
    the loop goes on with the next controller, and the retry flag is set
    only for status 409 with ['is referenced by'] in the body.  An
    exception of any other class raised there goes on to the caller, and
    so does every exception raised by any other call of [teardown]: the
    run ends with that exception and no later step is executed. *)
Theorem teardown_exception_handling :
  (forall controller failed w status body w1,
      respond (stop_call controller) w = (inl (ApiException status body), w1) ->
      outcome (stop_controller respond controller failed w)
      = Ok (failed || is_conflict (ApiException status body)))
  /\ (forall controller failed w e w1,
      respond (stop_call controller) w = (inl e, w1) ->
      (forall status body, e <> ApiException status body) ->
      stop_controller respond controller failed w
      = (Raise e, w1, [Called (stop_call controller) (Some e)]))
  /\ (forall fuel w tr1 c e tr2,
      events (teardown respond fuel w) = tr1 ++ Called c (Some e) :: tr2 ->
      caught c e = false ->
      outcome (teardown respond fuel w) = Raise e /\ tr2 = []).
Proof.
  split; [|split].
  - intros controller failed w status body w1 H.
    destruct (is_conflict (ApiException status body)) eqn:Hc.
    + rewrite (stop_controller_conflict _ failed _ _ _ _ H Hc).
      now rewrite orb_true_r.
    + rewrite (stop_controller_dropped _ failed _ _ _ _ H Hc).
      now rewrite orb_false_r.
  - intros controller failed w e w1 H Hne.
    apply stop_controller_propagates; assumption.
  - intros fuel w tr1 c e tr2 Hev Hc.
    exact (uncaught_is_last _ _ _ _ _ (clean_teardown fuel w) Hev Hc).
Qed.

(** ** The calls of [teardown] *)

Lemma emits_stop_controller root_id controller failed :
  emits (loop_event root_id) (stop_controller respond controller failed)
        (fun _ => True).
Proof.
  assert (Hcall : forall r, loop_event root_id (Called (stop_call controller) r)).
  { intros r. right. exists controller. reflexivity. }
  unfold stop_controller. apply emits_try.
  - eapply emits_bind; [apply (emits_call _ (stop_call controller) (fun _ => True)); auto|].
    intros _ _. eapply emits_bind; [apply emits_log with (Q := fun _ => True); exact I|].
    intros _ _. apply emits_ret. exact I.
  - intros status body.
    destruct ((status =? 409) && contains "is referenced by" body).
    + eapply emits_bind; [apply emits_log with (Q := fun _ => True); exact I|].
      intros _ _. apply emits_ret. exact I.
    + apply emits_ret. exact I.
Qed.

Lemma emits_stop_controllers root_id controllers : forall failed,
  emits (loop_event root_id) (stop_controllers respond controllers failed)
        (fun _ => True).
Proof.
  induction controllers as [|controller rest IH]; intros failed; simpl.
  - apply emits_ret. exact I.
  - eapply emits_bind; [apply emits_stop_controller|]. intros b _. apply IH.
Qed.

Lemma emits_stop_pass root_id :
  emits (loop_event root_id) (stop_pass respond root_id) (fun _ => True).
Proof.
  unfold stop_pass. eapply emits_bind.
  - apply (emits_call _ (CanvasListAllControllers root_id) (fun _ => True)); auto.
    intros r. left. reflexivity.
  - intros cs _. apply emits_stop_controllers.
Qed.

Lemma emits_stop_loop fuel root_id :
  emits (loop_event root_id) (stop_loop respond fuel root_id) (fun _ => True).
Proof.
  induction fuel as [|fuel IH]; simpl.
  - apply emits_diverge.
  - eapply emits_bind; [apply emits_stop_pass|].
    intros [|] _; [exact IH | apply emits_ret; exact I].
Qed.

Lemma Forall_calls (P : Call -> Prop) tr :
  Forall (fun ev => match ev with Called c _ => P c | Logged _ => True end) tr ->
  Forall P (calls tr).
Proof.
  induction 1 as [|[c r|msg] tr Hev _ IH]; simpl; auto.
Qed.

Lemma stop_loop_calls fuel root_id w :
  Forall (loop_call root_id) (calls (events (stop_loop respond fuel root_id w))).
Proof.
  apply Forall_calls. exact (proj1 (emits_stop_loop fuel root_id w)).
Qed.

(** Running [bind (call c) f] by cases on the answer to [c]. *)
Ltac run_call c w H :=
  destruct (respond c w) as [[?e|?v] ?w] eqn:H;
  [ rewrite (bind_raise _ _ _ _ _ _ (call_raises _ _ _ _ H))
  | rewrite (bind_ok _ _ _ _ _ _ (call_returns _ _ _ _ H)) ];
  cbn [outcome final events fst snd].

Ltac prefix_of_teardown_calls :=
  rewrite ?calls_app; unfold teardown_calls; cbn [calls app];
  repeat first [apply prefix_nil | apply prefix_cons | apply prefix_app
               | solve [apply prefix_app_r; reflexivity]].

Ltac same_environment H :=
  let Hv := fresh in
  intros ? ? Hv; try rewrite H in Hv; inversion Hv; subst; split; reflexivity.

Ltac aborted H root flow loop client :=
  exists root, flow, loop, client;
  split; [first [assumption | constructor]
         | split; [same_environment H
                  | split; [prefix_of_teardown_calls | discriminate]]].

(** Every run of [teardown] follows one sequence of calls: it is the
    whole sequence when the run completes and a prefix of it otherwise. *)
Lemma teardown_shape fuel w :
  exists root flow loop client,
    Forall (loop_call (ent_id root)) loop
    /\ (forall v w1, respond NfSetEnvironment w = (inr v, w1) ->
        fst (fst v) = root /\ snd v = flow)
    /\ calls (events (teardown respond fuel w))
       `prefix_of` teardown_calls root flow loop client
    /\ (outcome (teardown respond fuel w) = Ok tt ->
        calls (events (teardown respond fuel w))
        = teardown_calls root flow loop client).
Proof.
  unfold teardown.
  run_call NfSetEnvironment w H1; [aborted H1 root_entity "" (@nil Call) (@None Entity)|].
  destruct v as [[root efm] flow]. cbv beta iota.
  run_call (CanvasScheduleProcessGroup (ent_id root) false) w0 H2;
    [aborted H1 root flow (@nil Call) (@None Entity)|].
  pose proof (stop_loop_calls fuel (ent_id root) w1) as HL.
  destruct (stop_loop respond fuel (ent_id root) w1) as [[[[]|e|] w2] trl] eqn:EL;
    cbn [events snd] in HL;
    [ rewrite (bind_ok _ _ _ _ _ _ EL)
    | rewrite (bind_raise _ _ _ _ _ _ EL)
    | rewrite (bind_diverge _ _ _ _ _ EL) ];
    cbn [outcome final events fst snd];
    [ | aborted H1 root flow (calls trl) (@None Entity)
      | aborted H1 root flow (calls trl) (@None Entity) ].
  run_call (NfDeleteAll root) w2 H3; [aborted H1 root flow (calls trl) (@None Entity)|].
  run_call (EfmDeleteAll flow) w3 H4; [aborted H1 root flow (calls trl) (@None Entity)|].
  run_call SchregDeleteAllSchemas w4 H5; [aborted H1 root flow (calls trl) (@None Entity)|].
  run_call (VersioningGetRegistryClient "NiFi Registry") w5 H6;
    [aborted H1 root flow (calls trl) (@None Entity)|].
  destruct v3 as [client|].
  - run_call (VersioningDeleteRegistryClient client) w6 H7;
      [aborted H1 root flow (calls trl) (Some client)|].
    run_call (NifiregDeleteFlows "SensorFlows") w7 H8;
      [aborted H1 root flow (calls trl) (Some client)|].
    run_call KuduDropTable w8 H9; [aborted H1 root flow (calls trl) (Some client)|].
    exists root, flow, (calls trl), (Some client). split; [assumption|].
    split; [same_environment H1|].
    unfold call. destruct (respond CdswDeleteAllModelApiKeys w9) as [[e|[]] w10];
      cbn [outcome final events fst snd];
      (split; [prefix_of_teardown_calls
              | first [discriminate
                      | intros _; rewrite ?calls_app; reflexivity]]).
  - rewrite (bind_ok _ _ _ _ _ _ (eq_refl : ret tt w6 = (Ok tt, w6, []))).
    cbn [outcome final events fst snd].
    run_call (NifiregDeleteFlows "SensorFlows") w6 H8;
      [aborted H1 root flow (calls trl) (@None Entity)|].
    run_call KuduDropTable w7 H9; [aborted H1 root flow (calls trl) (@None Entity)|].
    exists root, flow, (calls trl), (@None Entity). split; [assumption|].
    split; [same_environment H1|].
    unfold call. destruct (respond CdswDeleteAllModelApiKeys w8) as [[e|[]] w9];
      cbn [outcome final events fst snd];
      (split; [prefix_of_teardown_calls
              | first [discriminate
                      | intros _; rewrite ?calls_app; reflexivity]]).
Qed.

Lemma passed_before_last {A} (r : Outcome A * W * list Event) tr1 ev tr2 :
  stops_at_first_uncaught r ->
  events r = tr1 ++ ev :: tr2 -> tr2 <> [] -> passed ev = true.
Proof.
  intros Hr Hev Hne. destruct (passed ev) eqn:Hp; [reflexivity|].
  destruct ev as [c [e|]|msg]; try discriminate. simpl in Hp.
  destruct (uncaught_is_last _ _ _ _ _ Hr Hev Hp) as [_ ->].
  destruct (Hne eq_refl).
Qed.


Lemma filter_loop_calls (p : Call -> bool) root_id loop :
  (forall c, loop_call root_id c -> p c = false) ->
  Forall (loop_call root_id) loop -> List.filter p loop = [].
Proof.
  intros Hp. induction 1 as [|c loop Hc _ IH]; simpl; [reflexivity|].
  now rewrite (Hp c Hc).
Qed.

Lemma count_teardown_calls (p : Call -> bool) root flow loop client :
  (forall c, loop_call (ent_id root) c -> p c = false) ->
  Forall (loop_call (ent_id root)) loop ->
  List.filter p (teardown_calls root flow loop client)
  = List.filter p
      (teardown_calls root flow [] client).
Proof.
  intros Hp Hl. unfold teardown_calls.
  rewrite !List.filter_app. rewrite (filter_loop_calls p _ _ Hp Hl).
  reflexivity.
Qed.

Lemma count_prefix (p : Call -> bool) (l1 l2 : list Call) :
  l1 `prefix_of` l2 ->
  (length (List.filter p l1) <= length (List.filter p l2))%nat.
Proof.
  intros [k ->]. rewrite List.filter_app, length_app. lia.
Qed.

Lemma teardown_calls_once root flow loop client :
  Forall (loop_call (ent_id root)) loop ->
  length (List.filter is_kudu_drop_table (teardown_calls root flow loop client))
  = 1%nat
  /\ length (List.filter is_cdsw_delete_all_model_api_keys
               (teardown_calls root flow loop client)) = 1%nat.
Proof.
  intros Hl. split.
  - rewrite (count_teardown_calls is_kudu_drop_table _ _ _ _); auto.
    + destruct client; reflexivity.
    + intros c [->|[ctrl ->]]; reflexivity.
  - rewrite (count_teardown_calls is_cdsw_delete_all_model_api_keys _ _ _ _); auto.
    + destruct client; reflexivity.
    + intros c [->|[ctrl ->]]; reflexivity.
Qed.

(** C7.  A run of [teardown] that completes calls [kudu.drop_table()]
    and then [cdsw.delete_all_model_api_keys()] as its last two calls,
    each exactly once; and no run calls either of them more than
    once. *)
Theorem teardown_drops_table_and_keys fuel w :
  (outcome (teardown respond fuel w) = Ok tt ->
   (exists before,
       calls (events (teardown respond fuel w))
       = before ++ [KuduDropTable; CdswDeleteAllModelApiKeys])
   /\ count_calls is_kudu_drop_table (events (teardown respond fuel w)) = 1%nat
   /\ count_calls is_cdsw_delete_all_model_api_keys
        (events (teardown respond fuel w)) = 1%nat)
  /\ (count_calls is_kudu_drop_table (events (teardown respond fuel w)) <= 1)%nat
  /\ (count_calls is_cdsw_delete_all_model_api_keys
        (events (teardown respond fuel w)) <= 1)%nat.
Proof.
  destruct (teardown_shape fuel w) as (root & flow & loop & client & Hl & _ & Hp & Hok).
  destruct (teardown_calls_once root flow loop client Hl) as [Hk Hc].
  unfold count_calls. split; [|split].
  - intros Hr. rewrite (Hok Hr), Hk, Hc. split; [|auto].
    exists ([NfSetEnvironment; CanvasScheduleProcessGroup (ent_id root) false]
            ++ loop
            ++ [NfDeleteAll root; EfmDeleteAll flow; SchregDeleteAllSchemas;
                VersioningGetRegistryClient "NiFi Registry"]
            ++ match client with
               | Some c => [VersioningDeleteRegistryClient c]
               | None => []
               end
            ++ [NifiregDeleteFlows "SensorFlows"]).
    unfold teardown_calls. rewrite <- !app_assoc. reflexivity.
  - rewrite <- Hk. apply count_prefix, Hp.
  - rewrite <- Hc. apply count_prefix, Hp.
Qed.

(** ** [read_in_schema] *)

Variable environ : gmap string string.
Variable run_id : string.

(** C8.  [read_in_schema] returns what reading the file named by
    [SCHEMA_FILE] gives whenever the variable is set and
    [os.path.exists] finds the file; when the variable is unset or the
    file is not found it requests the URI, and for the response [r] it
    returns [r.text] if [r.status_code] is 200 and raises [ValueError]
    for every other status code. *)
Theorem read_in_schema_result uri w :
  (forall path contents w1 w2,
      environ !! "SCHEMA_FILE" = Some path ->
      respond (OsPathExists path) w = (inr true, w1) ->
      respond (OpenRead path) w1 = (inr contents, w2) ->
      read_in_schema respond environ uri w
      = (Ok contents, w2,
         [Called (OsPathExists path) None; Called (OpenRead path) None]))
  /\ (forall w0 r w1,
      (environ !! "SCHEMA_FILE" = None /\ w0 = w)
      \/ (exists path, environ !! "SCHEMA_FILE" = Some path
                       /\ respond (OsPathExists path) w = (inr false, w0)) ->
      respond (RequestsGet uri) w0 = (inr r, w1) ->
      In (Called (RequestsGet uri) None)
         (events (read_in_schema respond environ uri w))
      /\ (status_code r = 200 ->
          outcome (read_in_schema respond environ uri w) = Ok (text r))
      /\ (status_code r <> 200 ->
          outcome (read_in_schema respond environ uri w)
          = Raise (ValueError
                     "Unable to retrieve schema from URI, response was %s"
                     (status_code r)))
      /\ ((exists s, outcome (read_in_schema respond environ uri w) = Ok s)
          <-> status_code r = 200)).
Proof.
  split.
  - intros path contents w1 w2 Henv Hex Hrd. unfold read_in_schema.
    rewrite Henv. rewrite (bind_ok _ _ _ _ _ _ (call_returns _ _ _ _ Hex)).
    rewrite (call_returns _ _ _ _ Hrd). reflexivity.
  - intros w0 r w1 Hcase Hget.
    assert (Hrun : read_in_schema respond environ uri w
                   = (if status_code r =? 200 then Ok (text r)
                      else Raise (ValueError
                             "Unable to retrieve schema from URI, response was %s"
                             (status_code r)),
                      w1,
                      events (read_in_schema respond environ uri w))
                   /\ In (Called (RequestsGet uri) None)
                        (events (read_in_schema respond environ uri w))).
    { unfold read_in_schema.
      destruct Hcase as [[Henv ->]|(path & Henv & Hex)]; rewrite Henv.
      - rewrite (bind_ok _ _ _ _ _ _ (call_returns _ _ _ _ Hget)).
        cbn [events snd].
        destruct (status_code r =? 200); simpl; auto.
      - rewrite (bind_ok _ _ _ _ _ _ (call_returns _ _ _ _ Hex)).
        rewrite (bind_ok _ _ _ _ _ _ (call_returns _ _ _ _ Hget)).
        cbn [outcome final events fst snd].
        destruct (status_code r =? 200); simpl; auto. }
    destruct Hrun as [Hrun Hin]. split; [exact Hin|].
    rewrite Hrun. cbn [outcome fst].
    destruct (Z.eqb_spec (status_code r) 200) as [Heq|Hne].
    + split; [reflexivity|]. split; [tauto|]. split; eauto.
    + split; [tauto|]. split; [reflexivity|].
      split; [intros [s Hs]; discriminate | tauto].
Qed.

(** ** The labs *)

(** One step of a proof of [emits P m Q] along the structure of [m];
    [Inv] is the property kept by [self.context] and [fin] closes the
    side conditions. *)
Ltac emits_step Inv fin :=
  lazymatch goal with
  | |- emits _ (bind (getattr _ _) _) _ =>
      eapply emits_bind; [apply emits_getattr | cbv beta; intros ? ?]
  | |- emits _ (bind (attr_id _ _) _) _ =>
      eapply emits_bind; [apply emits_attr_id | cbv beta; intros ? _]
  | |- emits _ (bind (call _ ?c) _) _ =>
      eapply emits_bind;
      [apply (emits_call _ c (fun _ => True)); [intros ?; fin | intros; exact I]
      | cbv beta; intros ? _]
  | |- emits _ (bind (log_debug _) _) _ =>
      eapply emits_bind;
      [apply emits_log with (Q := fun _ => True); [fin | exact I]
      | cbv beta; intros ? _]
  | |- emits _ (@bind _ Context _ ?m _) _ =>
      eapply (emits_bind _ m _ Inv); [| cbv beta; intros ? ?]
  | |- emits _ (bind ?m _) _ =>
      eapply (emits_bind _ m _ (fun _ => True)); [| cbv beta; intros ? _]
  | |- emits _ (call _ ?c) _ =>
      apply (emits_call _ c); [intros ?; fin | intros; fin]
  | |- emits _ (ret _) _ => apply emits_ret; fin
  | |- emits _ (raise _) _ => apply emits_raise
  | |- emits _ (if negb ?b then _ else _) _ =>
      destruct b; cbn [negb]; try (exfalso; congruence)
  | |- emits _ (if ?b then _ else _) _ => destruct b
  | |- emits _ (match ?o with Some _ => _ | None => _ end) _ =>
      destruct o eqn:?
  | |- emits _ (let _ := _ in _) _ => cbv zeta
  | |- emits _ (let '(_, _) := ?p in _) _ => destruct p
  end.

Ltac emits_auto Inv fin := repeat emits_step Inv fin.

Ltac context_fact :=
  first [ exact I
        | reflexivity
        | solve [cbn in *; congruence] ].

Lemma emits_skip_cdsw P :
  (forall msg, P (Logged msg)) ->
  emits P (skip_cdsw (W := W) environ)
        (fun flag => flag = bool_decide (is_Some (environ !! "SKIP_CDSW"))).
Proof.
  intros Hp. unfold skip_cdsw.
  eapply emits_bind; [apply emits_log with (Q := fun _ => True); auto|].
  intros _ _. apply emits_ret. reflexivity.
Qed.

(** [before_setup] records whether [SKIP_CDSW] is in the environment. *)
Lemma before_setup_flag P ctx :
  (forall msg, P (Logged msg)) -> (forall r, P (Called NfSetEnvironment r)) ->
  emits P (before_setup respond environ ctx)
    (fun ctx' =>
       ctx_skip_cdsw ctx' = Some (bool_decide (is_Some (environ !! "SKIP_CDSW")))
       /\ from_gw ctx' = from_gw ctx /\ temp_funnel ctx' = temp_funnel ctx).
Proof.
  intros Hl Hc. unfold before_setup.
  eapply emits_bind; [apply (emits_call _ NfSetEnvironment (fun _ => True)); auto|].
  intros [[root efm] flow] _. cbv beta iota.
  eapply emits_bind; [apply emits_skip_cdsw; exact Hl|].
  intros flag ->. apply emits_ret. auto.
Qed.

(** No lab assigns [self.context.skip_cdsw], and with the flag set
    neither lab issues a call that sets up CDSW access. *)
Lemma lab2_keeps_flag ctx :
  ctx_skip_cdsw ctx = Some true ->
  emits no_cdsw_setup (lab2_nifi_flow respond run_id ctx)
        (fun ctx' => ctx_skip_cdsw ctx' = Some true).
Proof.
  intros Hflag. unfold lab2_nifi_flow.
  emits_auto (fun c : Context => ctx_skip_cdsw c = Some true) context_fact.
Qed.

Lemma lab4_skips_cdsw ctx :
  ctx_skip_cdsw ctx = Some true ->
  emits no_cdsw_setup (lab4_rest_and_kudu respond run_id ctx)
        (fun ctx' => ctx_skip_cdsw ctx' = Some true).
Proof.
  intros Hflag. unfold lab4_rest_and_kudu.
  emits_auto (fun c : Context => ctx_skip_cdsw c = Some true) context_fact.
Qed.

Lemma Forall_uses_bucket_no_create b tr :
  Forall (uses_bucket b) tr ->
  (forall name, ~ In (VersioningCreateRegistryBucket name) (calls tr))
  /\ (forall pg client bucket flow_name flow comment,
      In (NifiregSaveFlowVer pg client bucket flow_name flow comment) (calls tr) ->
      bucket = b).
Proof.
  intros H. split.
  - intros name Hin. apply In_calls in Hin. destruct Hin as [r Hin].
    rewrite Forall_forall in H. exact (H _ (proj2 (list_elem_of_In _ _) Hin)).
  - intros pg client bucket flow_name flow comment Hin.
    apply In_calls in Hin. destruct Hin as [r Hin].
    rewrite Forall_forall in H. exact (H _ (proj2 (list_elem_of_In _ _) Hin)).
Qed.

(** C9.  When [get_registry_bucket('SensorFlows')] returns a bucket,
    [lab2_nifi_flow] keeps it in [self.context.sensor_bucket], saves the
    flow versions into it and issues no [create_registry_bucket] call. *)
Theorem lab2_reuses_existing_bucket ctx w b w1 :
  respond (VersioningGetRegistryBucket "SensorFlows") w = (inr (Some b), w1) ->
  (forall name,
      ~ In (VersioningCreateRegistryBucket name)
           (calls (events (lab2_nifi_flow respond run_id ctx w))))
  /\ (forall pg client bucket flow_name flow comment,
      In (NifiregSaveFlowVer pg client bucket flow_name flow comment)
         (calls (events (lab2_nifi_flow respond run_id ctx w))) ->
      bucket = b)
  /\ (forall ctx',
      outcome (lab2_nifi_flow respond run_id ctx w) = Ok ctx' ->
      sensor_bucket ctx' = Some b).
Proof.
  intros H. unfold lab2_nifi_flow.
  rewrite (bind_ok _ _ _ _ _ _ (call_returns _ _ _ _ H)).
  cbv beta zeta. cbn [sensor_bucket set_sensor_bucket].
  match goal with
  | |- context [events (?m w1)] =>
      assert (Hm : emits (uses_bucket b) m (fun c => sensor_bucket c = Some b))
        by (emits_auto (fun c : Context => sensor_bucket c = Some b) context_fact);
      destruct (Hm w1) as [Hev Hq]; clear Hm;
      generalize dependent (m w1)
  end.
  intros r Hev Hq. cbn [outcome final events fst snd].
  assert (Hall : Forall (uses_bucket b)
                   ([Called (VersioningGetRegistryBucket "SensorFlows") None]
                    ++ events r)).
  { apply Forall_app. split; [repeat constructor | exact Hev]. }
  destruct (Forall_uses_bucket_no_create _ _ Hall) as [Hno Hsave].
  split; [exact Hno|]. split; [exact Hsave|]. exact Hq.
Qed.

Lemma no_cdsw_setup_calls tr :
  Forall no_cdsw_setup tr ->
  forall c, In c (calls tr) -> cdsw_setup_call c = false.
Proof.
  intros H c Hin. apply Forall_calls in H. rewrite Forall_forall in H.
  apply H. apply list_elem_of_In. exact Hin.
Qed.

Lemma setup_skips_cdsw ctx :
  is_Some (environ !! "SKIP_CDSW") ->
  emits no_cdsw_setup (run_methods respond environ run_id setup_methods ctx)
        (fun _ => True).
Proof.
  intros Hset. unfold setup_methods. cbn [run_methods run_method].
  eapply emits_bind.
  { apply before_setup_flag; [intros msg; exact I | intros r; reflexivity]. }
  intros ctx1 [Hflag _]. rewrite (bool_decide_eq_true_2 _ Hset) in Hflag.
  eapply emits_bind.
  { eapply emits_bind with (Q := fun _ => True).
    - unfold lab1_register_schema.
      eapply emits_bind with (Q := fun _ => True).
      + unfold read_in_schema.
        destruct (environ !! "SCHEMA_FILE") as [path|];
          emits_auto (fun _ : Context => True) context_fact.
      + intros schema_text _.
        apply (emits_call _ (SchregCreateSchema _ _ _)); [intros r; reflexivity | auto].
    - intros _ _. apply emits_ret with (Q := fun c => c = ctx1). reflexivity. }
  cbv beta. intros ctx2 ->.
  eapply emits_bind; [apply lab2_keeps_flag; exact Hflag|].
  cbv beta. intros ctx3 Hflag3.
  eapply emits_bind; [apply lab4_skips_cdsw; exact Hflag3|].
  cbv beta. intros ctx4 _.
  eapply emits_bind.
  { eapply emits_bind with (Q := fun _ => True).
    - apply (emits_call _ (NfWaitForData PG_NAME)); [intros r; reflexivity | auto].
    - intros _ _. apply emits_ret with (Q := fun _ => True). exact I. }
  intros ctx5 _. apply emits_ret. exact I.
Qed.


(** ** Kafka *)

Lemma no_call_creates_topic c : creates c <> Some KafkaTopic.
Proof. destruct c; discriminate. Qed.

Lemma kafka_call_reads_properties c :
  kafka_call c = true ->
  exists ctx client_type group_id client_id,
    c = KafkaGetCommonClientProperties ctx client_type group_id client_id.
Proof. destruct c; try discriminate. eauto. Qed.

Lemma emits_mono {A} (P P' : Event -> Prop) (m : M W A) Q :
  (forall ev, P ev -> P' ev) -> emits P m Q -> emits P' m Q.
Proof.
  intros Hp Hm w. destruct (Hm w) as [Hev Hq]. split; [|exact Hq].
  eapply Forall_impl; eassumption.
Qed.

Ltac kafka_fact :=
  first [ exact I
        | left; reflexivity
        | right; left; reflexivity
        | right; right; reflexivity ].

Lemma loop_event_no_processor root_id ev :
  loop_event root_id ev -> topic_only_in_kafka_processor ev.
Proof.
  destruct ev as [c r|msg]; simpl; [|auto].
  intros [->|[controller ->]]; exact I.
Qed.

(** In every method of the workshop, the only processor configurations
    with a ['topic'] property are those of the Kafka record processors. *)
Lemma method_topics m ctx :
  emits topic_only_in_kafka_processor (run_method respond environ run_id m ctx)
        (fun _ => True).
Proof.
  destruct m as [| | | | |fuel]; cbn [run_method].
  - unfold before_setup, skip_cdsw.
    emits_auto (fun _ : Context => True) kafka_fact.
  - unfold lab1_register_schema, read_in_schema.
    destruct (environ !! "SCHEMA_FILE") as [path|];
      emits_auto (fun _ : Context => True) kafka_fact.
  - unfold lab2_nifi_flow. emits_auto (fun _ : Context => True) kafka_fact.
  - unfold lab4_rest_and_kudu. emits_auto (fun _ : Context => True) kafka_fact.
  - unfold after_setup. emits_auto (fun _ : Context => True) kafka_fact.
  - unfold teardown. emits_auto (fun _ : Context => True) kafka_fact.
    eapply emits_mono; [apply loop_event_no_processor | apply emits_stop_loop].
Qed.

Lemma run_topics ms : forall ctx,
  emits topic_only_in_kafka_processor (run_methods respond environ run_id ms ctx)
        (fun _ => True).
Proof.
  induction ms as [|m ms IH]; intros ctx; cbn [run_methods].
  - apply emits_ret. exact I.
  - eapply emits_bind; [apply method_topics|]. intros ctx' _. apply IH.
Qed.

(** ** Fuel *)

(** More fuel does not change a run of the loop that ended. *)
Lemma stop_loop_fuel_mono fuel : forall root_id w k,
  outcome (stop_loop respond fuel root_id w) <> Diverge ->
  stop_loop respond (fuel + k) root_id w = stop_loop respond fuel root_id w.
Proof.
  induction fuel as [|fuel IH]; intros root_id w k Hnd.
  - destruct (Hnd eq_refl).
  - simpl in *. unfold bind in *.
    destruct (stop_pass respond root_id w) as [[[[|]|e|] w1] tr1];
      try reflexivity.
    rewrite IH; [reflexivity|].
    destruct (stop_loop respond fuel root_id w1) as [[r w2] tr2].
    exact Hnd.
Qed.

End Properties.

(** * The script on the simulated installation *)

Lemma referenced_pass n :
  stop_pass sim_respond "root" (referenced (S n))
  = (Ok true, referenced n, conflict_pass).
Proof. reflexivity. Qed.

Lemma released_pass :
  stop_pass sim_respond "root" (referenced 0)
  = (Ok false, referenced 0, clean_pass).
Proof. reflexivity. Qed.

Lemma stuck_pass :
  stop_pass sim_respond "root" stuck = (Ok true, stuck, conflict_pass).
Proof. reflexivity. Qed.

(** [n] references take [n + 1] passes. *)
Lemma referenced_loop n :
  outcome (stop_loop sim_respond (S n) "root" (referenced n)) = Ok tt
  /\ passes (events (stop_loop sim_respond (S n) "root" (referenced n))) = S n.
Proof.
  induction n as [|n [IHo IHp]].
  - rewrite (stop_loop_next sim_respond 0 _ _ _ _ _ released_pass).
    split; reflexivity.
  - rewrite (stop_loop_next sim_respond (S n) _ _ _ _ _ (referenced_pass n)).
    cbn [outcome events fst snd]. rewrite passes_app, IHp. split; [exact IHo|].
    reflexivity.
Qed.

(** A controller that stays referenced keeps the loop running. *)
Lemma stuck_loop fuel :
  outcome (stop_loop sim_respond fuel "root" stuck) = Diverge
  /\ passes (events (stop_loop sim_respond fuel "root" stuck)) = fuel.
Proof.
  induction fuel as [|fuel [IHo IHp]]; [split; reflexivity|].
  rewrite (stop_loop_next sim_respond fuel _ _ _ _ _ stuck_pass).
  cbn [outcome events fst snd]. rewrite passes_app, IHp. split; [exact IHo|].
  reflexivity.
Qed.

(** C2 (as amended).  The poll loop of [teardown] has no bound of its
    own: it ends with the first pass that meets no conflict, which takes
    [n + 1] passes when the conflict shows [n] times in a row, for every
    [n]; and it does not end while every pass meets a conflict. *)
Theorem poll_loop_ends_at_first_clean_pass :
  (forall (W : Type) (respond : forall c : Call, W -> (Exn + ret_type c) * W)
          fuel root_id w w1 tr,
      stop_pass respond root_id w = (Ok false, w1, tr) ->
      stop_loop respond (S fuel) root_id w = (Ok tt, w1, tr))
  /\ (forall (W : Type) (respond : forall c : Call, W -> (Exn + ret_type c) * W)
          fuel root_id w k,
      outcome (stop_loop respond fuel root_id w) <> Diverge ->
      stop_loop respond (fuel + k) root_id w = stop_loop respond fuel root_id w)
  /\ (forall n,
      outcome (stop_loop sim_respond (S n) "root" (referenced n)) = Ok tt
      /\ passes (events (stop_loop sim_respond (S n) "root" (referenced n)))
         = S n)
  /\ (forall fuel,
      outcome (stop_loop sim_respond fuel "root" stuck) = Diverge
      /\ passes (events (stop_loop sim_respond fuel "root" stuck)) = fuel).
Proof.
  split; [|split; [|split]].
  - intros W respond fuel root_id w w1 tr H.
    exact (stop_loop_next respond fuel _ _ _ _ _ H).
  - intros W respond fuel root_id w k. apply stop_loop_fuel_mono.
  - exact referenced_loop.
  - exact stuck_loop.
Qed.

(** C5.  The poll loop makes no call but [list_all_controllers] and
    [schedule_controller(controller, False)] (and writes log lines): no
    sleep, wait or clock call.  A pass that met a conflict is followed at
    once by the next pass.  And nothing limits the number of passes: for
    every [n] some run makes more than [n] passes and ends, and some run
    is still in the loop after any number of passes. *)
Theorem poll_loop_no_backoff_no_limit :
  (forall (W : Type) (respond : forall c : Call, W -> (Exn + ret_type c) * W)
          fuel root_id w,
      Forall (loop_event root_id) (events (stop_loop respond fuel root_id w)))
  /\ (forall (W : Type) (respond : forall c : Call, W -> (Exn + ret_type c) * W)
          fuel root_id w w1 tr1,
      stop_pass respond root_id w = (Ok true, w1, tr1) ->
      events (stop_loop respond (S fuel) root_id w)
      = tr1 ++ events (stop_loop respond fuel root_id w1))
  /\ (forall n : nat,
      exists (W : Type) (respond : forall c : Call, W -> (Exn + ret_type c) * W)
             fuel root_id w,
        outcome (stop_loop respond fuel root_id w) = Ok tt
        /\ (n < passes (events (stop_loop respond fuel root_id w)))%nat)
  /\ (exists (W : Type) (respond : forall c : Call, W -> (Exn + ret_type c) * W)
             root_id w,
        forall n : nat,
          outcome (stop_loop respond n root_id w) = Diverge
          /\ passes (events (stop_loop respond n root_id w)) = n).
Proof.
  split; [|split; [|split]].
  - intros W respond fuel root_id w. exact (proj1 (emits_stop_loop respond fuel root_id w)).
  - intros W respond fuel root_id w w1 tr1 H.
    rewrite (stop_loop_next respond fuel _ _ _ _ _ H). reflexivity.
  - intros n. exists Sim, sim_respond, (S n), "root", (referenced n).
    destruct (referenced_loop n) as [Ho Hp]. rewrite Hp. split; [exact Ho | lia].
  - exists Sim, sim_respond, "root", stuck. exact stuck_loop.
Qed.


(** * The claims on concrete runs *)

Lemma teardown_loop_exits_after_clean_pass_witness :
  stop_loop sim_respond 2 "root" (referenced 1)
  = (Ok tt, referenced 0, conflict_pass ++ clean_pass)
  /\ (exists tr_before w_last tr_last controllers w1,
        conflict_pass ++ clean_pass = tr_before ++ tr_last
        /\ stop_pass sim_respond "root" w_last = (Ok false, referenced 0, tr_last)
        /\ sim_respond (CanvasListAllControllers "root") w_last
           = (inr controllers, w1)
        /\ calls tr_last
           = CanvasListAllControllers "root" :: map stop_call controllers
        /\ existsb conflict_event tr_last = false).
Proof.
  split; [reflexivity|].
  apply (proj1 (teardown_loop_exits_after_clean_pass sim_respond)
           2%nat "root" (referenced 1)).
  reflexivity.
Defined.

Lemma poll_loop_ends_at_first_clean_pass_witness :
  stop_pass sim_respond "root" (referenced 0) = (Ok false, referenced 0, clean_pass)
  /\ stop_loop sim_respond 1 "root" (referenced 0)
     = (Ok tt, referenced 0, clean_pass).
Proof.
  split; [reflexivity|].
  apply (proj1 poll_loop_ends_at_first_clean_pass Sim sim_respond 0%nat).
  reflexivity.
Defined.

(** C2, as the claim states it, fails: no number of passes is enough
    for the loop on the installation whose controller stays referenced. *)
Lemma poll_loop_bounded_counterexample : ~ poll_loop_bounded.
Proof.
  intros [bound H].
  exact (H Sim sim_respond "root" stuck (proj1 (stuck_loop bound))).
Qed.

Lemma teardown_exception_handling_witness :
  sim_respond (stop_call sr_controller)
    (failing_at 0 (ApiException 500 "boom") quiet)
  = (inl (ApiException 500 "boom"), quiet)
  /\ outcome (stop_controller sim_respond sr_controller false
                (failing_at 0 (ApiException 500 "boom") quiet))
     = Ok (false || is_conflict (ApiException 500 "boom")).
Proof.
  split; [reflexivity|].
  apply (proj1 (teardown_exception_handling sim_respond)
           sr_controller false _ 500 "boom" quiet).
  reflexivity.
Defined.

(** C3, as the claim states it, fails: an [ApiException] with status 500
    raised by [schedule_controller] is not the 409 conflict, yet it is
    caught: the run goes on to its last step and completes. *)
Lemma other_api_exception_is_caught_counterexample :
  is_conflict (ApiException 500 "boom") = false
  /\ nth_error
       (events (teardown sim_respond 1
                  (failing_at 3 (ApiException 500 "boom") quiet))) 3
     = Some (Called (stop_call sr_controller) (Some (ApiException 500 "boom")))
  /\ outcome (teardown sim_respond 1
                (failing_at 3 (ApiException 500 "boom") quiet)) = Ok tt
  /\ last (calls (events (teardown sim_respond 1
                            (failing_at 3 (ApiException 500 "boom") quiet))))
     = Some CdswDeleteAllModelApiKeys.
Proof. repeat split; vm_compute; reflexivity. Qed.


Lemma poll_loop_no_backoff_no_limit_witness :
  stop_pass sim_respond "root" (referenced 1) = (Ok true, referenced 0, conflict_pass)
  /\ events (stop_loop sim_respond 2 "root" (referenced 1))
     = conflict_pass ++ events (stop_loop sim_respond 1 "root" (referenced 0)).
Proof.
  split; [reflexivity|].
  apply (proj1 (proj2 poll_loop_no_backoff_no_limit) Sim sim_respond 1%nat).
  reflexivity.
Defined.



Lemma teardown_drops_table_and_keys_witness :
  outcome (teardown sim_respond 1 quiet) = Ok tt
  /\ (exists before,
        calls (events (teardown sim_respond 1 quiet))
        = before ++ [KuduDropTable; CdswDeleteAllModelApiKeys])
  /\ count_calls is_kudu_drop_table (events (teardown sim_respond 1 quiet)) = 1%nat
  /\ count_calls is_cdsw_delete_all_model_api_keys
       (events (teardown sim_respond 1 quiet)) = 1%nat.
Proof.
  split; [reflexivity|].
  apply (proj1 (teardown_drops_table_and_keys sim_respond 1 quiet)).
  reflexivity.
Defined.

Lemma read_in_schema_result_witness :
  ({["SCHEMA_FILE" := "/tmp/sensor.avsc"]} : gmap string string) !! "SCHEMA_FILE"
  = Some "/tmp/sensor.avsc"
  /\ sim_respond (OsPathExists "/tmp/sensor.avsc") with_schema_file
     = (inr true, with_schema_file)
  /\ sim_respond (OpenRead "/tmp/sensor.avsc") with_schema_file
     = (inr "{schema}", with_schema_file)
  /\ read_in_schema sim_respond {["SCHEMA_FILE" := "/tmp/sensor.avsc"]}
       _SCHEMA_URI with_schema_file
     = (Ok "{schema}", with_schema_file,
        [Called (OsPathExists "/tmp/sensor.avsc") None;
         Called (OpenRead "/tmp/sensor.avsc") None]).
Proof.
  split; [reflexivity|]. split; [reflexivity|]. split; [reflexivity|].
  apply (proj1 (read_in_schema_result sim_respond
                  {["SCHEMA_FILE" := "/tmp/sensor.avsc"]}
                  _SCHEMA_URI with_schema_file)
           "/tmp/sensor.avsc" "{schema}" with_schema_file with_schema_file);
    reflexivity.
Defined.

Lemma lab2_reuses_existing_bucket_witness :
  sim_respond (VersioningGetRegistryBucket "SensorFlows") with_bucket
  = (inr (Some sensor_bucket_entity), with_bucket)
  /\ (forall name,
        ~ In (VersioningCreateRegistryBucket name)
             (calls (events (lab2_nifi_flow sim_respond "run-1" edge_context
                               with_bucket)))).
Proof.
  split; [reflexivity|].
  apply (lab2_reuses_existing_bucket sim_respond "run-1" edge_context
           with_bucket sensor_bucket_entity with_bucket).
  reflexivity.
Defined.


(** With no schema file and the URI answering 404, [read_in_schema]
    raises [ValueError] with the status code as its second argument. *)
Example read_in_schema_not_served :
  outcome (read_in_schema sim_respond ∅ _SCHEMA_URI without_schema)
  = Raise (ValueError "Unable to retrieve schema from URI, response was %s" 404).
Proof. reflexivity. Qed.

(** * Further properties of the script *)

Section Dataflow.

Context {W : Type}.
Variable respond : forall c : Call, W -> (Exn + ret_type c) * W.
Variable run_id : string.

(** A call returns a value the service returned. *)
Lemma emits_call_returned P c :
  (forall r, P (Called c r)) -> emits P (call respond c) (returned respond c).
Proof.
  intros Hp w. unfold call. destruct (respond c w) as [[e|v] w1] eqn:H; simpl.
  - split; [repeat constructor; apply Hp | discriminate].
  - split; [repeat constructor; apply Hp | intros a [= <-]; exists w, w1; exact H].
Qed.

Lemma emits_attr_id_of P attr (o : option Entity) :
  emits P (attr_id (W := W) attr o)
        (fun s => exists e, o = Some e /\ s = ent_id e).
Proof.
  unfold attr_id. eapply emits_bind; [apply emits_getattr|].
  intros a Ha. apply emits_ret. exists a. auto.
Qed.

Lemma emits_absurd {A} P (m : M W A) : False -> emits P m (fun _ => False).
Proof. intros []. Qed.

(** After a bind: the value and what is known of it. *)
Ltac after_bind :=
  let v := fresh "v" in
  let Hv := fresh "Hv" in
  cbv beta; intros v Hv; cbv beta in Hv;
  first [ contradiction | subst v | idtac ].

(** One step along the structure of a program, as for the claims, with
    the postconditions that say where a value comes from.  A bind of a
    block that returns [self.context] is left to the proof; [fin] closes
    the side conditions, [absurd] the cases that cannot occur, and
    [learn] runs on what a call returned.  A block with a single live
    branch hands its value on as it is. *)
Ltac flow_step fin absurd learn :=
  lazymatch goal with
  | |- emits _ (bind (getattr _ _) _) _ =>
      eapply emits_bind;
      [apply emits_getattr
      | cbv beta; intros ? ?; try solve [apply emits_absurd; absurd]]
  | |- emits _ (bind (attr_id _ _) _) _ =>
      eapply emits_bind;
      [apply emits_attr_id_of
      | cbv beta; intros ? (? & ? & ?); try solve [apply emits_absurd; absurd]]
  | |- emits _ (bind (call _ ?c) _) _ =>
      eapply emits_bind;
      [apply (emits_call_returned _ c); intros ?; fin
      | cbv beta; intros ? ?; learn]
  | |- emits _ (bind (log_debug _) _) _ =>
      eapply emits_bind;
      [apply emits_log with (Q := fun _ => True); [fin | exact I]
      | cbv beta; intros ? _]
  | |- emits _ (@bind _ Context _ _ _) _ => fail
  | |- emits _ (bind ?m _) _ =>
      first [ eapply emits_bind;
              [solve [repeat flow_step fin absurd learn] | after_bind]
            | eapply (emits_bind _ m _ (fun _ => True));
              [| cbv beta; intros ? _] ]
  | |- emits _ (call _ ?c) ?Q =>
      tryif is_evar Q
      then (apply (emits_call_returned _ c); intros ?; fin)
      else (eapply emits_weaken;
            [apply (emits_call_returned _ c); intros ?; fin
            | cbv beta; intros ? ?; fin])
  | |- emits _ (ret ?a) ?Q =>
      tryif is_evar Q
      then (unify Q (fun x => x = a); apply emits_ret; reflexivity)
      else (apply emits_ret; fin)
  | |- emits _ (raise _) _ => apply emits_raise
  | |- emits _ (if negb ?b then _ else _) _ =>
      destruct b; cbn [negb]; try solve [exfalso; absurd]
  | |- emits _ (if ?b then _ else _) _ => destruct b; try solve [exfalso; absurd]
  | |- emits _ (match ?o with Some _ => _ | None => _ end) _ =>
      destruct o eqn:?; try solve [exfalso; absurd]
  | |- emits _ (let _ := _ in _) _ => cbv zeta
  | |- emits _ (let '(_, _) := ?p in _) _ => destruct p
  end.

Ltac flow fin absurd := repeat flow_step fin absurd idtac.

Ltac flow_learning fin absurd learn := repeat flow_step fin absurd learn.

(** A bind of a block that returns [self.context], with what the block
    establishes. *)
Ltac context_bind Q :=
  lazymatch goal with
  | |- emits _ (@bind _ Context _ ?m _) _ =>
      eapply (emits_bind _ m _ Q); [| cbv beta; intros ? ?]
  end.

(** ** [teardown] touches only what the services returned *)

Lemma stop_controller_target root efm flow controllers controller failed :
  returned respond NfSetEnvironment (root, efm, flow) ->
  returned respond (CanvasListAllControllers (ent_id root)) controllers ->
  In controller controllers ->
  emits (teardown_target respond) (stop_controller respond controller failed)
        (fun _ => True).
Proof.
  intros Hroot Hlist Hin. unfold stop_controller. apply emits_try.
  - flow ltac:(first [exact I | simpl; eauto 10]) fail.
  - intros status body.
    flow ltac:(first [exact I | simpl; eauto 10]) fail.
Qed.

Lemma stop_controllers_target root efm flow controllers :
  returned respond NfSetEnvironment (root, efm, flow) ->
  returned respond (CanvasListAllControllers (ent_id root)) controllers ->
  forall todo failed,
    (forall c, In c todo -> In c controllers) ->
    emits (teardown_target respond) (stop_controllers respond todo failed)
          (fun _ => True).
Proof.
  intros Hroot Hlist. induction todo as [|controller rest IH]; intros failed Hsub.
  - apply emits_ret. exact I.
  - simpl. eapply emits_bind.
    + apply (stop_controller_target root efm flow controllers); auto.
      apply Hsub. left. reflexivity.
    + intros b _. apply IH. intros c Hc. apply Hsub. right. exact Hc.
Qed.

Lemma stop_loop_target root efm flow fuel :
  returned respond NfSetEnvironment (root, efm, flow) ->
  emits (teardown_target respond) (stop_loop respond fuel (ent_id root))
        (fun _ => True).
Proof.
  intros Hroot. induction fuel as [|fuel IH]; simpl.
  - apply emits_diverge.
  - eapply emits_bind.
    + unfold stop_pass. eapply emits_bind.
      * apply (emits_call_returned _ (CanvasListAllControllers (ent_id root))).
        intros r. simpl. eauto.
      * intros controllers Hlist.
        apply (stop_controllers_target root efm flow controllers); auto.
    + intros [|] _; [exact IH | apply emits_ret; exact I].
Qed.

Lemma teardown_target_emits fuel :
  emits (teardown_target respond) (teardown respond fuel) (fun _ => True).
Proof.
  unfold teardown.
  flow_step ltac:(exact I) fail idtac. destruct a as [[root efm] flow]. cbv beta iota.
  flow_step ltac:(simpl; eauto 10) fail idtac.
  eapply emits_bind; [apply (stop_loop_target root efm flow); assumption|].
  cbv beta. intros _ _.
  flow ltac:(first [exact I | reflexivity | simpl; eauto 10 | simpl; congruence]) fail.
Qed.

(** [teardown] schedules off, lists, deletes and stops only what the
    services gave it: the root process group and the flow id come from
    [set_environment], every controller it stops was listed for that
    group, the registry client it deletes is the one
    [get_registry_client('NiFi Registry')] returned, and it makes no
    call of any other kind. *)
Theorem teardown_touches_only_returned_objects fuel w :
  Forall (teardown_target respond) (events (teardown respond fuel w)).
Proof. exact (proj1 (teardown_target_emits fuel w)). Qed.

(** ** [read_in_schema] and [lab1_register_schema] *)

Section Schema.

Variable environ : gmap string string.

(** The calls of [read_in_schema] take one of four shapes: it makes at
    most one HTTP request, none once it has opened the file, and it
    looks at no file when [SCHEMA_FILE] is unset. *)
Theorem read_in_schema_calls uri w :
  match environ !! "SCHEMA_FILE" with
  | None => calls (events (read_in_schema respond environ uri w)) = [RequestsGet uri]
  | Some path =>
      calls (events (read_in_schema respond environ uri w)) = [OsPathExists path]
      \/ calls (events (read_in_schema respond environ uri w))
         = [OsPathExists path; OpenRead path]
      \/ calls (events (read_in_schema respond environ uri w))
         = [OsPathExists path; RequestsGet uri]
  end.
Proof.
  unfold read_in_schema. destruct (environ !! "SCHEMA_FILE") as [path|].
  - unfold bind, call.
    destruct (respond (OsPathExists path) w) as [[e|[|]] w1]; simpl; auto.
    + destruct (respond (OpenRead path) w1) as [[e|v] w2]; simpl; auto.
    + destruct (respond (RequestsGet uri) w1) as [[e|r] w2]; simpl; auto.
      destruct (status_code r =? 200); simpl; auto.
  - unfold bind, call.
    destruct (respond (RequestsGet uri) w) as [[e|r] w1]; simpl; auto.
    destruct (status_code r =? 200); simpl; auto.
Qed.

Lemma read_in_schema_no_schema_call uri w name description schema_text :
  ~ In (SchregCreateSchema name description schema_text)
       (calls (events (read_in_schema respond environ uri w))).
Proof.
  pose proof (read_in_schema_calls uri w) as H.
  destruct (environ !! "SCHEMA_FILE") as [path|].
  - destruct H as [ -> | [ -> | -> ] ]; simpl; intuition discriminate.
  - rewrite H. simpl. intuition discriminate.
Qed.

(** [lab1_register_schema] registers only what [read_in_schema] gave:
    a [create_schema] call is for ['SensorReading'] with the text that
    was read, and when [read_in_schema] raises (a status other than 200,
    say) the lab raises the same exception and registers nothing. *)
Theorem lab1_registers_what_was_read w :
  (forall name description schema_text,
      In (SchregCreateSchema name description schema_text)
         (calls (events (lab1_register_schema respond environ w))) ->
      name = "SensorReading"
      /\ outcome (read_in_schema respond environ _SCHEMA_URI w) = Ok schema_text)
  /\ (forall e,
      outcome (read_in_schema respond environ _SCHEMA_URI w) = Raise e ->
      outcome (lab1_register_schema respond environ w) = Raise e
      /\ forall name description schema_text,
          ~ In (SchregCreateSchema name description schema_text)
               (calls (events (lab1_register_schema respond environ w)))).
Proof.
  unfold lab1_register_schema.
  pose proof (read_in_schema_no_schema_call _SCHEMA_URI w) as Hno.
  destruct (read_in_schema respond environ _SCHEMA_URI w)
    as [[[text|e|] w1] tr1] eqn:Hread; cbn [outcome events fst snd] in *.
  - rewrite (bind_ok _ _ _ _ _ _ Hread). cbn [outcome events fst snd].
    split; [|discriminate].
    intros name description schema_text Hin. rewrite calls_app in Hin.
    apply in_app_or in Hin. destruct Hin as [Hin|Hin]; [destruct (Hno _ _ _ Hin)|].
    unfold call in Hin.
    destruct (respond (SchregCreateSchema "SensorReading"
                "Schema for the data generated by the IoT sensors" text) w1)
      as [[e|v] w2]; simpl in Hin;
      destruct Hin as [[= <- <- <-]|[]]; auto.
  - rewrite (bind_raise _ _ _ _ _ _ Hread). cbn [outcome events fst snd].
    split.
    + intros name description schema_text Hin. destruct (Hno _ _ _ Hin).
    + intros e' [= <-]. split; [reflexivity | exact Hno].
  - rewrite (bind_diverge _ _ _ _ _ Hread). cbn [outcome events fst snd].
    split; [|discriminate].
    intros name description schema_text Hin. destruct (Hno _ _ _ Hin).
Qed.

End Schema.

(** ** [lab2_nifi_flow]: the bucket *)

Ltac flow_with Inv fin absurd :=
  repeat first [flow_step fin absurd idtac | context_bind Inv].

Ltac bucket_fact :=
  first [ exact I
        | reflexivity
        | solve [cbn in *; congruence] ].

Lemma uses_bucket_no_create b tr :
  Forall (uses_bucket b) tr ->
  List.filter is_create_registry_bucket (calls tr) = [].
Proof.
  induction 1 as [|[c r|msg] tr Hev _ IH]; simpl; auto.
  destruct c; simpl in *; auto. destruct Hev.
Qed.

(** When [get_registry_bucket('SensorFlows')] finds nothing,
    [lab2_nifi_flow] creates the bucket right away, once, keeps the
    bucket [create_registry_bucket] returned in
    [self.context.sensor_bucket] and saves the flow versions into it. *)
Theorem lab2_creates_missing_bucket ctx w w1 b w2 :
  respond (VersioningGetRegistryBucket "SensorFlows") w = (inr None, w1) ->
  respond (VersioningCreateRegistryBucket "SensorFlows") w1 = (inr b, w2) ->
  (exists rest,
      events (lab2_nifi_flow respond run_id ctx w)
      = Called (VersioningGetRegistryBucket "SensorFlows") None
        :: Called (VersioningCreateRegistryBucket "SensorFlows") None :: rest)
  /\ count_calls is_create_registry_bucket
       (events (lab2_nifi_flow respond run_id ctx w)) = 1%nat
  /\ (forall pg client bucket flow_name flow comment,
      In (NifiregSaveFlowVer pg client bucket flow_name flow comment)
         (calls (events (lab2_nifi_flow respond run_id ctx w))) ->
      bucket = b)
  /\ (forall ctx',
      outcome (lab2_nifi_flow respond run_id ctx w) = Ok ctx' ->
      sensor_bucket ctx' = Some b).
Proof.
  intros H1 H2. unfold lab2_nifi_flow.
  rewrite (bind_ok _ _ _ _ _ _ (call_returns respond _ _ _ _ H1)).
  cbv beta zeta. cbn [sensor_bucket set_sensor_bucket].
  erewrite bind_ok; cycle 1.
  { rewrite (bind_ok _ _ _ _ _ _ (call_returns respond _ _ _ _ H2)). reflexivity. }
  cbv beta. cbn [outcome final events fst snd ret app].
  match goal with
  | |- context [events (?m w2)] =>
      assert (Hm : emits (uses_bucket b) m (fun c => sensor_bucket c = Some b))
        by (flow_with (fun c : Context => sensor_bucket c = Some b)
              bucket_fact fail);
      destruct (Hm w2) as [Hev Hq]; clear Hm;
      generalize dependent (m w2)
  end.
  intros r Hev Hq. cbn [outcome final events fst snd app].
  split; [eexists; reflexivity|].
  split.
  { unfold count_calls. cbn [calls List.filter is_create_registry_bucket].
    rewrite (uses_bucket_no_create b _ Hev). reflexivity. }
  split.
  - intros pg client bucket flow_name flow comment [Heq|[Heq|Hin]];
      [discriminate | discriminate |].
    exact (proj2 (Forall_uses_bucket_no_create _ _ Hev) pg client bucket
             flow_name flow comment Hin).
  - exact Hq.
Qed.

(** ** The labs without TLS *)

(** What [is_tls_enabled()] returned, when the answer is known. *)
Ltac tls_known Htls :=
  try match goal with
      | H : returned _ IsTlsEnabled ?v |- _ =>
          let w := fresh in
          let w' := fresh in
          destruct H as (w & w' & H); apply Htls in H; subst v; cbv iota
      end.

Ltac missing_attribute := solve [cbn in *; congruence].

Ltac plain_fact :=
  first [ exact I
        | reflexivity
        | solve [repeat split; reflexivity]
        | solve [intros; reflexivity]
        | solve [cbn in *; intuition congruence] ].

Lemma lab2_without_tls_emits ctx :
  tls_off respond ->
  emits no_tls_setup (lab2_nifi_flow respond run_id ctx)
        (fun ctx' => ssl_svc ctx' = None /\ keytab_svc ctx' = None).
Proof.
  intros Htls. unfold lab2_nifi_flow.
  flow_learning plain_fact fail ltac:(idtac; tls_known Htls).
  context_bind (fun _ : Context => True);
    [flow_learning plain_fact fail ltac:(idtac; tls_known Htls)|].
  flow_learning plain_fact fail ltac:(idtac; tls_known Htls).
  context_bind (fun _ : Context => True);
    [flow_learning plain_fact fail ltac:(idtac; tls_known Htls)|].
  flow_learning plain_fact fail ltac:(idtac; tls_known Htls).
  context_bind (fun c : Context => ssl_svc c = None /\ keytab_svc c = None);
    [flow_learning plain_fact fail ltac:(idtac; tls_known Htls)|].
  flow_learning plain_fact fail ltac:(idtac; tls_known Htls).
Qed.

Lemma lab4_without_tls_emits ctx :
  tls_off respond ->
  emits no_tls_setup (lab4_rest_and_kudu respond run_id ctx) (fun _ => True).
Proof.
  intros Htls. unfold lab4_rest_and_kudu.
  flow_learning plain_fact fail ltac:(idtac; tls_known Htls).
Qed.

(** When [is_tls_enabled()] is false, [lab2_nifi_flow] and
    [lab4_rest_and_kudu] set up nothing for TLS: no password is read, no
    controller is looked up, updated or scheduled, no controller service
    is given an SSL or Kerberos service, the Kudu writer gets [None] as
    its Kerberos service, and lab2 leaves [self.context.ssl_svc] and
    [self.context.keytab_svc] at [None]. *)
Theorem labs_without_tls ctx w :
  tls_off respond ->
  Forall no_tls_setup (events (lab2_nifi_flow respond run_id ctx w))
  /\ (forall ctx',
      outcome (lab2_nifi_flow respond run_id ctx w) = Ok ctx' ->
      ssl_svc ctx' = None /\ keytab_svc ctx' = None)
  /\ Forall no_tls_setup (events (lab4_rest_and_kudu respond run_id ctx w)).
Proof.
  intros Htls. split; [|split].
  - exact (proj1 (lab2_without_tls_emits ctx Htls w)).
  - exact (proj2 (lab2_without_tls_emits ctx Htls w)).
  - exact (proj1 (lab4_without_tls_emits ctx Htls w)).
Qed.

(** With TLS enabled, [lab4_rest_and_kudu] needs the SSL context
    service: when [self.context.ssl_svc] is [None] (as lab2 leaves it
    without TLS) the lab does not complete. *)
Theorem lab4_with_tls_needs_ssl_service ctx w ctx' :
  tls_on respond ->
  ssl_svc ctx = None ->
  outcome (lab4_rest_and_kudu respond run_id ctx w) <> Ok ctx'.
Proof.
  intros Htls Hssl Hok.
  assert (Hm : emits (fun _ => True) (lab4_rest_and_kudu respond run_id ctx)
                 (fun _ => False)).
  { unfold lab4_rest_and_kudu.
    flow_learning ltac:(first [exact I | cbn in *; congruence])
      ltac:(idtac; missing_attribute) ltac:(idtac; tls_known Htls). }
  exact (proj2 (Hm w) ctx' Hok).
Qed.

(** ** Kafka topics *)

Lemma dict_get_set k k' v d :
  dict_get k (dict_set k' v d)
  = if String.eqb k k' then Some v else dict_get k d.
Proof.
  unfold dict_get. induction d as [|[k0 v0] d IH]; simpl.
  - destruct (String.eqb k k'); reflexivity.
  - destruct (String.eqb_spec k' k0) as [->|Hne]; simpl.
    + destruct (String.eqb k k0); reflexivity.
    + destruct (String.eqb_spec k k0) as [->|Hne0]; simpl.
      * destruct (String.eqb_spec k0 k'); [congruence | reflexivity].
      * exact IH.
Qed.

(** [d.update(other)] leaves a key that [other] does not hold as it is
    in [d]. *)
Lemma dict_get_update_absent k other : forall d,
  dict_get k other = None -> dict_get k (dict_update d other) = dict_get k d.
Proof.
  unfold dict_update.
  induction other as [|[k0 v0] other IH]; intros d Hnone; simpl; [reflexivity|].
  unfold dict_get in Hnone. simpl in Hnone.
  destruct (String.eqb k k0) eqn:Hk; [discriminate|].
  rewrite IH by exact Hnone. rewrite dict_get_set. simpl. now rewrite Hk.
Qed.

Section Topics.

Variable environ : gmap string string.

Hypothesis common_without_topic :
  forall kctx client_type group_id client_id v,
    returned respond
      (KafkaGetCommonClientProperties kctx client_type group_id client_id) v ->
    dict_get "topic" v = None.

Ltac topic_fact :=
  first [ exact I
        | left; reflexivity
        | right; cbn [properties];
          rewrite dict_get_update_absent
            by (eapply common_without_topic; eassumption);
          eexists; split; [reflexivity | simpl; auto] ].

Lemma teardown_target_names_no_topic ev :
  teardown_target respond ev -> names_lab_topic ev.
Proof. destruct ev as [[]|]; simpl; auto; intros []. Qed.

Lemma method_names_lab_topics m ctx :
  emits names_lab_topic (run_method respond environ run_id m ctx) (fun _ => True).
Proof.
  destruct m as [| | | | |fuel]; cbn [run_method].
  - unfold before_setup, skip_cdsw.
    flow_with (fun _ : Context => True) topic_fact fail.
  - unfold lab1_register_schema, read_in_schema.
    destruct (environ !! "SCHEMA_FILE") as [path|];
      flow_with (fun _ : Context => True) topic_fact fail.
  - unfold lab2_nifi_flow. flow_with (fun _ : Context => True) topic_fact fail.
  - unfold lab4_rest_and_kudu.
    flow_with (fun _ : Context => True) topic_fact fail.
  - unfold after_setup. flow_with (fun _ : Context => True) topic_fact fail.
  - eapply emits_bind with (Q := fun _ => True).
    + eapply emits_mono;
        [apply teardown_target_names_no_topic | apply teardown_target_emits].
    + intros _ _. apply emits_ret. exact I.
Qed.

Lemma run_names_lab_topics ms : forall ctx,
  emits names_lab_topic (run_methods respond environ run_id ms ctx) (fun _ => True).
Proof.
  induction ms as [|m ms IH]; intros ctx; cbn [run_methods].
  - apply emits_ret. exact I.
  - eapply emits_bind; [apply method_names_lab_topics|]. intros ctx' _. apply IH.
Qed.

(** The common Kafka client properties are merged over the lab's own
    ([props.update]), so they decide a key they hold.  When they hold no
    ['topic'], every topic named by a processor that any run creates is
    ['iot'], ['iot_enriched'] or ['iot_enriched_avro']. *)
Theorem labs_name_only_their_topics ms ctx w c t :
  In c (calls (events (run_methods respond environ run_id ms ctx w))) ->
  topic_of c = Some t ->
  In t lab_topics.
Proof.
  intros Hin Ht. apply In_calls in Hin. destruct Hin as [r Hin].
  pose proof (proj1 (run_names_lab_topics ms ctx w)) as Hall.
  rewrite Forall_forall in Hall.
  specialize (Hall _ (proj2 (list_elem_of_In _ _) Hin)).
  destruct c; try discriminate. simpl in Hall, Ht.
  destruct Hall as [Hnone|(t' & Hsome & Hin')].
  - rewrite Hnone in Ht. discriminate.
  - rewrite Hsome in Ht. injection Ht as <-. exact Hin'.
Qed.

End Topics.

(** ** [lab4_rest_and_kudu] and [self.context] *)

Ltac sensor_pg_fact :=
  first [ exact I
        | solve [cbn in *; eauto]
        | solve [cbn in *; repeat split; congruence]
        | solve [eexists; reflexivity] ].

Lemma lab4_in_sensor_pg ctx :
  emits (in_sensor_pg ctx) (lab4_rest_and_kudu respond run_id ctx)
        (fun ctx' =>
           exists svc, ctx' = set_json_reader_with_schema_svc (Some svc) ctx).
Proof.
  unfold lab4_rest_and_kudu. flow sensor_pg_fact fail.
Qed.

(** [lab4_rest_and_kudu] builds on what [self.context] holds: every
    controller service, processor and funnel it creates goes into
    [self.context.sensor_pg], the variables are set on that group, the
    flow version is saved for that group with the context's registry
    client and bucket, and the group it starts is the context's root.
    On completion the context differs from the one it was given in
    [json_reader_with_schema_svc] only. *)
Theorem lab4_builds_in_sensor_pg ctx w :
  Forall (in_sensor_pg ctx) (events (lab4_rest_and_kudu respond run_id ctx w))
  /\ (forall ctx',
      outcome (lab4_rest_and_kudu respond run_id ctx w) = Ok ctx' ->
      exists svc, ctx' = set_json_reader_with_schema_svc (Some svc) ctx).
Proof. exact (lab4_in_sensor_pg ctx w). Qed.

(** Taking a completed [bind] apart. *)
Ltac split_bind H Hm :=
  apply bind_ok_inv in H;
  let a := fresh "a" in
  let w := fresh "w" in
  let tr1 := fresh "tr" in
  let tr2 := fresh "tr" in
  destruct H as (a & w & tr1 & tr2 & Hm & H & ->).

Ltac split_call H :=
  let Hm := fresh "Hcall" in
  split_bind H Hm; apply call_ok_inv in Hm; destruct Hm as [Hm ->].

(** Without [SKIP_CDSW], a run of [lab4_rest_and_kudu] that completes
    began by creating the Kudu table and then set the two variables on
    [self.context.sensor_pg]: ['cdsw.access.key'] to what
    [cdsw.get_model_access_key()] returned, then ['cdsw.model.api.key']
    to what [cdsw.create_model_api_key()] returned. *)
Theorem lab4_sets_cdsw_variables ctx w ctx' w' tr :
  ctx_skip_cdsw ctx = Some false ->
  lab4_rest_and_kudu respond run_id ctx w = (Ok ctx', w', tr) ->
  exists pg access_key api_key rest,
    sensor_pg ctx = Some pg
    /\ returned respond CdswGetModelAccessKey access_key
    /\ returned respond CdswCreateModelApiKey api_key
    /\ tr = [Called KuduCreateTable None;
             Called (KuduGetKuduTableName "default" "sensors") None;
             Called CdswGetModelAccessKey None;
             Called (CanvasUpdateVariableRegistry pg
                       [("cdsw.access.key", access_key)]) None;
             Called CdswCreateModelApiKey None;
             Called (CanvasUpdateVariableRegistry pg
                       [("cdsw.model.api.key", api_key)]) None]
            ++ rest.
Proof.
  intros Hskip H. unfold lab4_rest_and_kudu in H. rewrite Hskip in H.
  split_call H. split_call H.
  split_bind H Hflag. injection Hflag as <- <- <-. cbn [negb] in H.
  split_bind H Hvars. clear H.
  destruct (sensor_pg ctx) as [pg|] eqn:Hpg; [|discriminate].
  split_bind Hvars Hget. injection Hget as <- <- <-.
  split_call Hvars. split_call Hvars.
  split_bind Hvars Hget. injection Hget as <- <- <-.
  split_call Hvars.
  apply (call_ok_inv respond (CanvasUpdateVariableRegistry _ _)) in Hvars.
  destruct Hvars as [Hvars ->].
  eexists pg, _, _, _. split; [reflexivity|].
  split; [eexists _, _; eassumption|]. split; [eexists _, _; eassumption|].
  cbn [app]. rewrite <- ?app_assoc. cbn [app]. reflexivity.
Qed.

(** ** [lab2_nifi_flow] and the process group it creates *)

Ltac created_fact :=
  first [ exact I
        | solve [ cbn in *; unfold created_pg in *;
                  repeat match goal with
                         | H : _ /\ _ |- _ => destruct H
                         | H : root_pg ?c = root_pg _ |- _ =>
                             rewrite H in *; clear H
                         end;
                  simplify_eq;
                  first [ eauto 10 | left; eauto 10 | right; eauto 10 ] ] ].

Lemma lab2_in_created_pg ctx :
  emits (in_created_pg respond ctx) (lab2_nifi_flow respond run_id ctx)
        (fun ctx' =>
           root_pg ctx' = root_pg ctx
           /\ exists pg, sensor_pg ctx' = Some pg /\ created_pg respond ctx pg).
Proof.
  unfold lab2_nifi_flow.
  flow created_fact fail.
  context_bind (fun c : Context => root_pg c = root_pg ctx);
    [flow created_fact fail|].
  flow created_fact fail.
  match goal with
  | Hpg : returned respond (CanvasCreateProcessGroup ?root PG_NAME (330, 350)) ?pg
    |- _ =>
      context_bind (fun c : Context =>
                      root_pg c = root_pg ctx /\ sensor_pg c = Some pg);
      [flow created_fact fail|];
      flow created_fact fail;
      context_bind (fun c : Context =>
                      root_pg c = root_pg ctx /\ sensor_pg c = Some pg);
      [flow created_fact fail|];
      flow created_fact fail
  end.
Qed.

(** [lab2_nifi_flow] creates the process group under
    [self.context.root_pg] and builds inside the group
    [create_process_group] returned: its port, processors, funnel and
    controller services go there and the flow versions are saved for it;
    only the SSL context service goes into the root group.  It starts
    the root group and nothing else, and on completion
    [self.context.sensor_pg] is the created group. *)
Theorem lab2_builds_in_created_pg ctx w :
  Forall (in_created_pg respond ctx)
         (events (lab2_nifi_flow respond run_id ctx w))
  /\ (forall ctx',
      outcome (lab2_nifi_flow respond run_id ctx w) = Ok ctx' ->
      root_pg ctx' = root_pg ctx
      /\ exists pg, sensor_pg ctx' = Some pg /\ created_pg respond ctx pg).
Proof. exact (lab2_in_created_pg ctx w). Qed.

End Dataflow.

(** * The further properties on concrete runs *)

Lemma sim_tls_fixed b w v w' :
  sim_respond_tls b IsTlsEnabled w = (inr v, w') -> v = b.
Proof.
  unfold sim_respond_tls, sim_respond.
  destruct (script (force_tls b w)) as [|[e|] rest]; simpl;
    intros H; inversion H; reflexivity.
Qed.

Lemma sim_common_without_topic kctx client_type group_id client_id v :
  returned sim_respond
    (KafkaGetCommonClientProperties kctx client_type group_id client_id) v ->
  dict_get "topic" v = None.
Proof.
  intros (w & w' & H). unfold sim_respond in H.
  destruct (script w) as [|[e|] rest]; simpl in H;
    inversion H; reflexivity.
Qed.

Lemma lab1_registers_what_was_read_witness :
  outcome (read_in_schema sim_respond ∅ _SCHEMA_URI without_schema)
  = Raise (ValueError "Unable to retrieve schema from URI, response was %s" 404)
  /\ outcome (lab1_register_schema sim_respond ∅ without_schema)
     = Raise (ValueError "Unable to retrieve schema from URI, response was %s" 404)
  /\ (forall name description schema_text,
        ~ In (SchregCreateSchema name description schema_text)
             (calls (events (lab1_register_schema sim_respond ∅ without_schema)))).
Proof.
  split; [reflexivity|].
  apply (proj2 (lab1_registers_what_was_read sim_respond ∅ without_schema)).
  reflexivity.
Defined.

Lemma lab2_creates_missing_bucket_witness :
  sim_respond (VersioningGetRegistryBucket "SensorFlows") quiet = (inr None, quiet)
  /\ sim_respond (VersioningCreateRegistryBucket "SensorFlows") quiet
     = (inr sensor_bucket_entity, with_bucket)
  /\ count_calls is_create_registry_bucket
       (events (lab2_nifi_flow sim_respond "run-1" context_before_lab2 quiet))
     = 1%nat.
Proof.
  split; [reflexivity|]. split; [reflexivity|].
  apply (lab2_creates_missing_bucket sim_respond "run-1" context_before_lab2
           quiet quiet sensor_bucket_entity with_bucket); reflexivity.
Defined.

Lemma labs_without_tls_witness :
  tls_off (sim_respond_tls false)
  /\ Forall no_tls_setup
       (events (lab2_nifi_flow (sim_respond_tls false) "run-1"
                  context_before_lab2 quiet)).
Proof.
  split; [exact (sim_tls_fixed false)|].
  apply (labs_without_tls (sim_respond_tls false) "run-1" context_before_lab2
           quiet (sim_tls_fixed false)).
Defined.

(** On the quiet installation lab2 ran without TLS; with TLS enabled
    afterwards lab4 stops at [self.context.ssl_svc.id]. *)
Example lab4_after_lab2_without_tls :
  ssl_svc context_after_lab2 = None
  /\ outcome (lab4_rest_and_kudu (sim_respond_tls true) "run-1"
                context_after_lab2 quiet)
     = Raise (AttributeError "ssl_svc").
Proof. split; vm_compute; reflexivity. Qed.

Lemma lab4_with_tls_needs_ssl_service_witness :
  tls_on (sim_respond_tls true)
  /\ ssl_svc context_after_lab2 = None
  /\ outcome (lab4_rest_and_kudu (sim_respond_tls true) "run-1"
                context_after_lab2 quiet)
     <> Ok context_after_lab4.
Proof.
  split; [exact (sim_tls_fixed true)|]. split; [vm_compute; reflexivity|].
  apply (lab4_with_tls_needs_ssl_service (sim_respond_tls true) "run-1"
           context_after_lab2 quiet context_after_lab4 (sim_tls_fixed true)).
  vm_compute. reflexivity.
Defined.

Lemma labs_name_only_their_topics_witness :
  In last_topic_call (calls (events quiet_setup))
  /\ topic_of last_topic_call = Some "iot_enriched_avro"
  /\ In "iot_enriched_avro" lab_topics.
Proof.
  assert (Hin : In last_topic_call (calls (events quiet_setup))).
  { vm_compute. repeat first [left; reflexivity | right]. }
  assert (Ht : topic_of last_topic_call = Some "iot_enriched_avro").
  { vm_compute. reflexivity. }
  split; [exact Hin|]. split; [exact Ht|].
  exact (labs_name_only_their_topics sim_respond "run-1" ∅
           sim_common_without_topic setup_methods edge_context quiet
           last_topic_call "iot_enriched_avro" Hin Ht).
Defined.

Lemma lab4_builds_in_sensor_pg_witness :
  outcome (lab4_rest_and_kudu sim_respond "run-1" context_after_lab2 quiet)
  = Ok context_after_lab4
  /\ exists svc,
      context_after_lab4
      = set_json_reader_with_schema_svc (Some svc) context_after_lab2.
Proof.
  assert (Hok : outcome (lab4_rest_and_kudu sim_respond "run-1"
                           context_after_lab2 quiet) = Ok context_after_lab4).
  { vm_compute. reflexivity. }
  split; [exact Hok|].
  exact (proj2 (lab4_builds_in_sensor_pg sim_respond "run-1" context_after_lab2
                  quiet) context_after_lab4 Hok).
Defined.

Lemma lab4_sets_cdsw_variables_witness :
  ctx_skip_cdsw context_after_lab2 = Some false
  /\ exists pg access_key api_key rest,
      sensor_pg context_after_lab2 = Some pg
      /\ returned sim_respond CdswGetModelAccessKey access_key
      /\ returned sim_respond CdswCreateModelApiKey api_key
      /\ events (lab4_rest_and_kudu sim_respond "run-1" context_after_lab2 quiet)
         = [Called KuduCreateTable None;
            Called (KuduGetKuduTableName "default" "sensors") None;
            Called CdswGetModelAccessKey None;
            Called (CanvasUpdateVariableRegistry pg
                      [("cdsw.access.key", access_key)]) None;
            Called CdswCreateModelApiKey None;
            Called (CanvasUpdateVariableRegistry pg
                      [("cdsw.model.api.key", api_key)]) None]
           ++ rest.
Proof.
  assert (Hskip : ctx_skip_cdsw context_after_lab2 = Some false).
  { vm_compute. reflexivity. }
  split; [exact Hskip|].
  apply (lab4_sets_cdsw_variables sim_respond "run-1" context_after_lab2 quiet
           context_after_lab4
           (final (lab4_rest_and_kudu sim_respond "run-1" context_after_lab2 quiet))
           (events (lab4_rest_and_kudu sim_respond "run-1" context_after_lab2 quiet))
           Hskip).
  vm_compute. reflexivity.
Defined.

Lemma lab2_builds_in_created_pg_witness :
  outcome (lab2_nifi_flow sim_respond "run-1" context_before_lab2 quiet)
  = Ok context_after_lab2
  /\ root_pg context_after_lab2 = root_pg context_before_lab2
  /\ exists pg,
      sensor_pg context_after_lab2 = Some pg
      /\ created_pg sim_respond context_before_lab2 pg.
Proof.
  assert (Hok : outcome (lab2_nifi_flow sim_respond "run-1"
                           context_before_lab2 quiet) = Ok context_after_lab2).
  { vm_compute. reflexivity. }
  split; [exact Hok|].
  exact (proj2 (lab2_builds_in_created_pg sim_respond "run-1"
                  context_before_lab2 quiet) context_after_lab2 Hok).
Defined.
